(** * jira-cli: the API client (package jira) and the init command

    A shallow embedding of the Go sources of the repository.

    Definitions, in the order of the file:
    - [strings]: the functions of Go's [strings] package the client uses;
    - [base64]: the standard encoding behind [Request.SetBasicAuth];
    - the [Config] and [Client] data model, [NewClient], [WithTimeout];
    - [request], [Get] and [GetV1], in a small state monad over the client
      the receiver points to, standard output, the requests handed to the
      transport, and the outside world;
    - the same functions on the arguments Go also allows, options that are
      nil or panic ([NewClient_values]) and contexts that are nil
      ([request_nilable], [Get_nilable], [GetV1_nilable]);
    - [cmd.initialize], the body of the [init] command.

    The theorems follow the definitions. *)

From Stdlib Require Import List Bool Arith ZArith NArith Lia Ascii String.
Import ListNotations.

Local Open Scope string_scope.

(* ================================================================== *)
(** * Part I: definitions *)

(* ------------------------------------------------------------------ *)
(** ** Go's [strings] package *)

Module strings.

(** [func HasSuffix(s, suffix string) bool]:
    [len(s) >= len(suffix) && s[len(s)-len(suffix):] == suffix] *)
Definition HasSuffix (s suffix : string) : bool :=
  (length suffix <=? length s)%nat &&
  (substring (length s - length suffix) (length suffix) s =? suffix).

(** [func TrimSuffix(s, suffix string) string]:
    [if HasSuffix(s, suffix) { return s[:len(s)-len(suffix)] }; return s] *)
Definition TrimSuffix (s suffix : string) : string :=
  if HasSuffix s suffix
  then substring 0 (length s - length suffix) s
  else s.

(** [func Contains(s, substr string) bool] *)
Fixpoint Contains (s substr : string) : bool :=
  prefix substr s ||
  match s with
  | EmptyString => false
  | String _ s' => Contains s' substr
  end.

End strings.

(** Number of consecutive ["/"] characters at the end of a string. *)
Fixpoint trailing_slashes (s : string) : nat :=
  match s with
  | EmptyString => 0
  | String c r =>
      let n := trailing_slashes r in
      if Ascii.eqb c "/" && (n =? length r)%nat then S n else n
  end.

(* ------------------------------------------------------------------ *)
(** ** Go's [encoding/base64], standard encoding (RFC 4648, padded) *)

Module base64.

Local Open Scope N_scope.

(** [const encodeStd] *)
Definition encodeStd : string :=
  "ABCDEFGHIJKLMNOPQRSTUVWXYZabcdefghijklmnopqrstuvwxyz0123456789+/".

(** [StdPadding] *)
Definition StdPadding : ascii := "="%char.

(** [enc.encode[i]] *)
Definition encode (i : N) : ascii :=
  match String.get (N.to_nat i) encodeStd with
  | Some ch => ch
  | None => StdPadding
  end.

(** [enc.decodeMap[ch]], with [None] for the bytes outside the alphabet. *)
Definition decodeMap (ch : ascii) : option N :=
  option_map N.of_nat (String.index 0 (String ch EmptyString) encodeStd).

(** [val := uint(a)<<16 | uint(b)<<8 | uint(c)]: the three bytes occupy
    disjoint bits, so the bitwise or is the sum. *)
Definition pack3 (a b c : ascii) : N :=
  N_of_ascii a * 65536 + N_of_ascii b * 256 + N_of_ascii c.

(** [val>>k & 0x3F] *)
Definition sextet (val k : N) : N := (val / 2 ^ k) mod 64.

Definition NUL : ascii := ascii_of_N 0.

(** [func (enc *Encoding) EncodeToString(src []byte) string] *)
Fixpoint EncodeToString (src : string) : string :=
  match src with
  | EmptyString => EmptyString
  | String a EmptyString =>
      let val := pack3 a NUL NUL in
      String (encode (sextet val 18)) (String (encode (sextet val 12))
        (String StdPadding (String StdPadding EmptyString)))
  | String a (String b EmptyString) =>
      let val := pack3 a b NUL in
      String (encode (sextet val 18)) (String (encode (sextet val 12))
        (String (encode (sextet val 6)) (String StdPadding EmptyString)))
  | String a (String b (String c rest)) =>
      let val := pack3 a b c in
      String (encode (sextet val 18)) (String (encode (sextet val 12))
        (String (encode (sextet val 6)) (String (encode (sextet val 0))
          (EncodeToString rest))))
  end.

(** The 24-bit value of four sextets, and its three bytes. *)
Definition pack4 (i1 i2 i3 i4 : N) : N :=
  i1 * 262144 + i2 * 4096 + i3 * 64 + i4.

Definition octet (val k : N) : ascii := ascii_of_N ((val / 2 ^ k) mod 256).

(** [func (enc *Encoding) DecodeString(s string) ([]byte, error)] on input
    without line breaks; [None] stands for [CorruptInputError]. *)
Fixpoint DecodeString (s : string) : option string :=
  match s with
  | EmptyString => Some EmptyString
  | String c1 (String c2 (String c3 (String c4 rest))) =>
      match decodeMap c1, decodeMap c2 with
      | Some i1, Some i2 =>
          match decodeMap c3, decodeMap c4 with
          | Some i3, Some i4 =>
              let val := pack4 i1 i2 i3 i4 in
              option_map
                (fun r => String (octet val 16) (String (octet val 8)
                            (String (octet val 0) r)))
                (DecodeString rest)
          | Some i3, None =>
              let val := pack4 i1 i2 i3 0 in
              if Ascii.eqb c4 StdPadding && String.eqb rest EmptyString
              then Some (String (octet val 16)
                           (String (octet val 8) EmptyString))
              else None
          | None, _ =>
              let val := pack4 i1 i2 0 0 in
              if Ascii.eqb c3 StdPadding && Ascii.eqb c4 StdPadding
                 && String.eqb rest EmptyString
              then Some (String (octet val 16) EmptyString)
              else None
          end
      | _, _ => None
      end
  | _ => None
  end.

End base64.

(* ------------------------------------------------------------------ *)
(** ** Package jira: constants, errors and the data model *)

(** [time.Duration] is an [int64] count of nanoseconds; the client only
    stores and copies it. *)
Definition Duration : Type := Z.

Definition Second : Duration := 1000000000%Z.

(** RFC3339 is jira datetime format. *)
Definition RFC3339 : string := "2006-01-02T15:04:05-0700".

Definition baseURLv3 : string := "/rest/api/3".
Definition baseURLv1 : string := "/rest/agile/1.0".

(** The [error] values this package can meet: its three sentinels, each a
    distinct value made once by [fmt.Errorf], and the errors produced inside
    the standard library by [http.NewRequest] and by a transport. *)
Inductive error : Type :=
| ErrNoResult              (* denotes no results *)
| ErrEmptyResponse         (* denotes empty response from the server *)
| ErrUnexpectedStatusCode  (* denotes response code other than 200 *)
| url_Error (msg : string)
| net_Error (msg : string).

(** [err.Error()] *)
Definition Error (e : error) : string :=
  match e with
  | ErrNoResult => "jira: no result"
  | ErrEmptyResponse => "jira: empty response from server"
  | ErrUnexpectedStatusCode => "jira: unexpected status code"
  | url_Error msg => msg
  | net_Error msg => msg
  end.

Definition is_sentinel (e : error) : bool :=
  match e with
  | ErrNoResult | ErrEmptyResponse | ErrUnexpectedStatusCode => true
  | url_Error _ | net_Error _ => false
  end.

(** Config is a jira config. *)
Record Config : Type := {
  Server : string;
  Login : string;
  APIToken : string;
  Debug : bool
}.

(** The part of [net.Dialer] and [http.Transport] that [NewClient] fills in.
    [DialContext] is the method value of a dialer nobody else holds, so it
    is modelled by that dialer. *)
Inductive ProxyFunc : Type := ProxyFromEnvironment.

Record net_Dialer : Type := { Timeout : Duration }.

Record http_Transport : Type := {
  Proxy : option ProxyFunc;
  DialContext : net_Dialer
}.

(** [http.RoundTripper] as the client holds it: [None] is the nil interface
    (the zero value of the field), [Some t] a pointer to a transport. *)
Definition RoundTripper : Type := option http_Transport.

(** Client is a jira client. *)
Record Client : Type := {
  transport : RoundTripper;
  server : string;
  login : string;
  token : string;
  timeout : Duration;
  debug : bool
}.

(** ClientFunc decorates option for client: a function taking a pointer to
    the client, which it may update in place. This type holds the options
    that are not nil and return on every client, as [WithTimeout] does; the
    values Go also allows, nil and functions that panic, are
    [ClientFunc_value] below, with [NewClient_values]. *)
Definition ClientFunc : Type := Client -> Client.

Definition set_transport (c : Client) (rt : RoundTripper) : Client :=
  {| transport := rt; server := server c; login := login c;
     token := token c; timeout := timeout c; debug := debug c |}.

Definition set_timeout (c : Client) (to : Duration) : Client :=
  {| transport := transport c; server := server c; login := login c;
     token := token c; timeout := to; debug := debug c |}.

(** [for _, opt := range opts { opt(&client) }] *)
Definition apply_opts (opts : list ClientFunc) (client : Client) : Client :=
  fold_left (fun cl opt => opt cl) opts client.

(** NewClient instantiates new jira client. The struct literal leaves
    [transport] and [timeout] at their zero values; the transport is then
    built from the client as it stands, and only then do the options run. *)
Definition NewClient (c : Config) (opts : list ClientFunc) : Client :=
  let client :=
    {| transport := None;
       server := strings.TrimSuffix (Server c) "/";
       login := Login c;
       token := APIToken c;
       timeout := 0%Z;
       debug := Debug c |} in
  let client :=
    set_transport client
      (Some {| Proxy := Some ProxyFromEnvironment;
               DialContext := {| Timeout := timeout client |} |}) in
  apply_opts opts client.

(** WithTimeout is a functional opt to attach timeout to the client. *)
Definition WithTimeout (to : Duration) : ClientFunc :=
  fun c => set_timeout c to.

(** The timeout the client's transport dials with, when it has a transport. *)
Definition dial_timeout (c : Client) : option Duration :=
  option_map (fun t => Timeout (DialContext t)) (transport c).

(* ------------------------------------------------------------------ *)
(** ** What the client takes from the standard library and the network *)

(** [net/url] and [context]: parsed URLs with the parser [http.NewRequest]
    runs on its argument ([inl] carries the message of the parse error), and
    contexts with the background context a fresh request starts with. *)
Class Library : Type := {
  url_URL : Type;
  url_Parse : string -> string + url_URL;
  context_Context : Type;
  context_Background : context_Context
}.

(** [net/textproto]: the bytes allowed in a header field name (the token
    characters of RFC 7230). *)
Definition validHeaderFieldByte (c : ascii) : bool :=
  existsb (Ascii.eqb c)
    (list_ascii_of_string
       ("!#$%&'*+-.^_`|~0123456789" ++
        "ABCDEFGHIJKLMNOPQRSTUVWXYZabcdefghijklmnopqrstuvwxyz")).

(** [c -= toLower] for a lower case letter, [c += toLower] for an upper
    case one. *)
Definition upper_byte (c : ascii) : ascii :=
  let n := nat_of_ascii c in
  if (97 <=? n)%nat && (n <=? 122)%nat then ascii_of_nat (n - 32) else c.

Definition lower_byte (c : ascii) : ascii :=
  let n := nat_of_ascii c in
  if (65 <=? n)%nat && (n <=? 90)%nat then ascii_of_nat (n + 32) else c.

(** The loop of [canonicalMIMEHeaderKey]: upper case for the first letter
    and for a letter after a dash, lower case for the others. *)
Fixpoint canonical_bytes (upper : bool) (s : string) : string :=
  match s with
  | EmptyString => EmptyString
  | String c r =>
      let c' := if upper then upper_byte c else lower_byte c in
      String c' (canonical_bytes (Ascii.eqb c' "-") r)
  end.

(** [func CanonicalMIMEHeaderKey(s string) string]: a key with a byte that
    is not allowed in a field name is returned as it is. *)
Definition CanonicalMIMEHeaderKey (s : string) : string :=
  if forallb validHeaderFieldByte (list_ascii_of_string s)
  then canonical_bytes true s
  else s.

(** [http.Header]: key to values, keys in canonical form. *)
Definition http_Header : Type := list (string * list string).

(** [func (h Header) Set(key, value string)]:
    [h[CanonicalMIMEHeaderKey(key)] = []string{value}] *)
Definition Header_Set (h : http_Header) (key value : string) : http_Header :=
  let k := CanonicalMIMEHeaderKey key in
  (k, [value]) :: filter (fun kv => negb (fst kv =? k)) h.

(** [func (h Header) Get(key string) string]: the first value stored under
    the canonical form of the key, the empty string when there is none. *)
Definition Header_Get (h : http_Header) (key : string) : string :=
  match find (fun kv => fst kv =? CanonicalMIMEHeaderKey key) h with
  | Some (_, v :: _) => v
  | _ => EmptyString
  end.

(** The fields of [http.Request] an outgoing GET carries. *)
Record Request `{Library} : Type := {
  Method : string;
  URL : url_URL;
  Header : http_Header;
  req_ctx : context_Context
}.

Record Response : Type := {
  StatusCode : Z;
  Body : string
}.

(** The network behind an [http.Transport]: a round trip either obtains a
    response, whatever its status, or fails with a message (DNS, connection
    refused, timeout, cancelled context); it may change the world. *)
Class Network `{Library} : Type := {
  World : Type;
  Transport_RoundTrip :
    http_Transport -> Request -> World -> (Response + string) * World
}.

Definition MethodGet : string := "GET".

(** [http.NewRequest(method, url, nil)] for a valid method: the URL is
    parsed, a parse error is returned as it is, and the request starts with
    no header and the background context. *)
Definition http_NewRequest `{Library} (method url : string)
  : error + Request :=
  match url_Parse url with
  | inl msg => inl (url_Error msg)
  | inr u =>
      inr {| Method := method; URL := u; Header := [];
             req_ctx := context_Background |}
  end.

(** [func basicAuth(username, password string) string] of [net/http] *)
Definition basicAuth (username password : string) : string :=
  base64.EncodeToString (username ++ ":" ++ password).

(** [func (r *Request) SetBasicAuth(username, password string)] *)
Definition SetBasicAuth `{Library} (r : Request) (username password : string)
  : Request :=
  {| Method := Method r; URL := URL r;
     Header := Header_Set (Header r) "Authorization"
               ("Basic " ++ basicAuth username password);
     req_ctx := req_ctx r |}.

(** [func (r *Request) WithContext(ctx context.Context) *Request] on a
    context that is not nil, which the library requires; the call on a
    context that may be nil is [WithContext_nilable] below. *)
Definition WithContext `{Library} (r : Request) (ctx : context_Context)
  : Request :=
  {| Method := Method r; URL := URL r; Header := Header r; req_ctx := ctx |}.

(* ------------------------------------------------------------------ *)
(** ** The machine the methods of the client run on *)

(** [receiver] is the [Client] the method receiver points to, [stdout] the
    chunks written by [fmt.Printf], oldest first, [sent] the requests handed
    to the transport, oldest first. *)
Record Machine `{Network} : Type := {
  receiver : Client;
  stdout : list string;
  sent : list Request;
  world : World
}.

Inductive outcome (A : Type) : Type :=
| Returns (a : A)
| Panics (msg : string).

Arguments Returns {A} a.
Arguments Panics {A} msg.

Definition M `{Network} (A : Type) : Type := Machine -> outcome A * Machine.

Definition ret `{Network} {A : Type} (a : A) : M A :=
  fun m => (Returns a, m).

Definition bind `{Network} {A B : Type} (c : M A) (k : A -> M B) : M B :=
  fun m =>
    match c m with
    | (Returns a, m') => k a m'
    | (Panics msg, m') => (Panics msg, m')
    end.

Notation "x <- c ;; k" := (bind c (fun x => k))
  (at level 61, c at next level, right associativity).
Notation "c ;;; k" := (bind c (fun _ => k))
  (at level 61, right associativity).

(** Reading a field through the receiver pointer. *)
Definition field `{Network} {A : Type} (f : Client -> A) : M A :=
  fun m => (Returns (f (receiver m)), m).

Definition LF : string := String (ascii_of_nat 10) EmptyString.

Definition write_stdout `{Network} (m : Machine) (text : string) : Machine :=
  {| receiver := receiver m; stdout := (stdout m ++ [text])%list;
     sent := sent m; world := world m |}.

(** [fmt.Printf] with the format already filled in. *)
Definition Printf `{Network} (text : string) : M unit :=
  fun m => (Returns tt, write_stdout m text).

(** The machine after the transport took [req] and left the world [w]. *)
Definition hand_over `{Network} (m : Machine) (req : Request) (w : World)
  : Machine :=
  {| receiver := receiver m; stdout := stdout m;
     sent := (sent m ++ [req])%list; world := w |}.

(** The pair of a response pointer and an error that the operations
    return; [None] is nil. *)
Definition result : Type := option Response * option error.

(** [rt.RoundTrip(req)]: calling a method of the nil interface panics; a
    transport runs the request on the network. *)
Definition RoundTrip `{Network} (rt : RoundTripper) (req : Request)
  : M result :=
  fun m =>
    match rt with
    | None =>
        (Panics "invalid memory address or nil pointer dereference", m)
    | Some t =>
        let (r, w) := Transport_RoundTrip t req (world m) in
        (Returns match r with
                 | inl res => (Some res, None)
                 | inr msg => (None, Some (net_Error msg))
                 end,
         hand_over m req w)
    end.

(* ------------------------------------------------------------------ *)
(** ** Package jira: the request operations *)

(** ["Requesting: %s\n"] filled in with the endpoint. *)
Definition trace_line (endpoint : string) : string :=
  "Requesting: " ++ endpoint ++ LF.

Definition request `{Network} (ctx : context_Context) (endpoint : string)
  : M result :=
  dbg <- field debug ;;
  (if dbg then Printf (trace_line endpoint) else ret tt) ;;;
  match http_NewRequest MethodGet endpoint with
  | inl err => ret (None, Some err)
  | inr req =>
      usr <- field login ;;
      tok <- field token ;;
      let req := SetBasicAuth req usr tok in
      rt <- field transport ;;
      RoundTrip rt (WithContext req ctx)
  end.

(** Get sends get request to v3 version of the jira api. *)
Definition Get `{Network} (ctx : context_Context) (path : string)
  : M result :=
  srv <- field server ;;
  request ctx (srv ++ baseURLv3 ++ path).

(** GetV1 sends get request to v1 version of the jira api. *)
Definition GetV1 `{Network} (ctx : context_Context) (path : string)
  : M result :=
  srv <- field server ;;
  request ctx (srv ++ baseURLv1 ++ path).

(** A call of one of the three operations, and sequences of calls on the
    same client; a panic ends the sequence. *)
Inductive call `{Network} : Type :=
| call_Get (ctx : context_Context) (path : string)
| call_GetV1 (ctx : context_Context) (path : string)
| call_request (ctx : context_Context) (endpoint : string).

Definition run_call `{Network} (c : call) : M result :=
  match c with
  | call_Get ctx path => Get ctx path
  | call_GetV1 ctx path => GetV1 ctx path
  | call_request ctx endpoint => request ctx endpoint
  end.

Fixpoint run_calls `{Network} (cs : list call) : M (list result) :=
  match cs with
  | [] => ret []
  | c :: cs' =>
      r <- run_call c ;;
      rs <- run_calls cs' ;;
      ret (r :: rs)
  end.

(** The machine on which a freshly constructed client starts. *)
Definition boot `{Network} (c : Client) (w : World) : Machine :=
  {| receiver := c; stdout := []; sent := []; world := w |}.

(** The requests a computation hands to the transport. *)
Definition sent_by `{Network} {A : Type} (c : M A) (m : Machine)
  : list Request :=
  skipn (List.length (sent m)) (sent (snd (c m))).

(** The chunks a computation writes to standard output. *)
Definition printed_by `{Network} {A : Type} (c : M A) (m : Machine)
  : list string :=
  skipn (List.length (stdout m)) (stdout (snd (c m))).

(* ------------------------------------------------------------------ *)
(** ** Vocabulary of the statements *)

(** The request [request] builds for a parsed URL [u]. *)
Definition built `{Library} (c : Client) (ctx : context_Context) (u : url_URL)
  : Request :=
  {| Method := MethodGet; URL := u;
     Header := [("Authorization",
                 ["Basic " ++ basicAuth (login c) (token c)])];
     req_ctx := ctx |}.

(** The machine after the debug trace, if any. *)
Definition traced `{Network} (m : Machine) (endpoint : string) : Machine :=
  if debug (receiver m)
  then write_stdout m (trace_line endpoint)
  else m.

(** The requests [request] sends: one, when the URL parses and the client
    has a transport. *)
Definition requests_of `{Library} (c : Client) (ctx : context_Context)
  (endpoint : string) : list Request :=
  match url_Parse endpoint, transport c with
  | inr u, Some _ => [built c ctx u]
  | _, _ => []
  end.

(** The context and the endpoint of a call on the client [c]. *)
Definition call_ctx `{Network} (k : call) : context_Context :=
  match k with
  | call_Get ctx _ | call_GetV1 ctx _ | call_request ctx _ => ctx
  end.

Definition call_endpoint `{Network} (c : Client) (k : call) : string :=
  match k with
  | call_Get _ path => server c ++ baseURLv3 ++ path
  | call_GetV1 _ path => server c ++ baseURLv1 ++ path
  | call_request _ endpoint => endpoint
  end.

(** The zero value [Client{}]: every field at its zero value, the transport
    the nil interface. *)
Definition zero_Client : Client :=
  {| transport := None; server := EmptyString; login := EmptyString;
     token := EmptyString; timeout := 0%Z; debug := false |}.


(* ------------------------------------------------------------------ *)
(** ** Arguments as Go allows them: nil options and nil contexts *)

(** A value of type [ClientFunc]: nil, or a function which, run on a
    client, returns the client updated or panics. *)
Inductive ClientFunc_value : Type :=
| nil_ClientFunc
| func (body : Client -> outcome Client).

(** An option that always returns, as a value. *)
Definition returning (opt : ClientFunc) : ClientFunc_value :=
  func (fun c => Returns (opt c)).

(** [opt(&client)]: calling a nil function panics. *)
Definition call_ClientFunc (opt : ClientFunc_value) (client : Client)
  : outcome Client :=
  match opt with
  | nil_ClientFunc =>
      Panics "invalid memory address or nil pointer dereference"
  | func body => body client
  end.

(** [for _, opt := range opts { opt(&client) }]: a panic ends the loop, and
    the function with it. *)
Fixpoint range_opts (opts : list ClientFunc_value) (client : Client)
  : outcome Client :=
  match opts with
  | [] => Returns client
  | opt :: rest =>
      match call_ClientFunc opt client with
      | Returns client' => range_opts rest client'
      | Panics msg => Panics msg
      end
  end.

(** NewClient on any option values: the struct literal, the transport, the
    option loop, and the return of the client when the loop ends. *)
Definition NewClient_values (c : Config) (opts : list ClientFunc_value)
  : outcome Client :=
  let client :=
    {| transport := None;
       server := strings.TrimSuffix (Server c) "/";
       login := Login c;
       token := APIToken c;
       timeout := 0%Z;
       debug := Debug c |} in
  let client :=
    set_transport client
      (Some {| Proxy := Some ProxyFromEnvironment;
               DialContext := {| Timeout := timeout client |} |}) in
  range_opts opts client.

(** What an option value does to a client when its call returns. *)
Definition effect (opt : ClientFunc_value) : ClientFunc :=
  fun c =>
    match call_ClientFunc opt c with
    | Returns c' => c'
    | Panics _ => c
    end.

(** [func (r *Request) WithContext(ctx context.Context) *Request] on a
    context that may be nil ([None]): [if ctx == nil { panic("nil context") }]. *)
Definition WithContext_nilable `{Library} (r : Request)
  (ctx : option context_Context) : outcome Request :=
  match ctx with
  | None => Panics "nil context"
  | Some ctx' => Returns (WithContext r ctx')
  end.

(** An outcome reached without touching the machine. *)
Definition lift_outcome `{Network} {A : Type} (o : outcome A) : M A :=
  fun m => (o, m).

(** [request], [Get] and [GetV1] on a context that may be nil. In
    [c.transport.RoundTrip(req.WithContext(ctx))] the transport field is
    read, then the argument is evaluated, then the method is called. *)
Definition request_nilable `{Network} (ctx : option context_Context)
  (endpoint : string) : M result :=
  dbg <- field debug ;;
  (if dbg then Printf (trace_line endpoint) else ret tt) ;;;
  match http_NewRequest MethodGet endpoint with
  | inl err => ret (None, Some err)
  | inr req =>
      usr <- field login ;;
      tok <- field token ;;
      let req := SetBasicAuth req usr tok in
      rt <- field transport ;;
      req' <- lift_outcome (WithContext_nilable req ctx) ;;
      RoundTrip rt req'
  end.

Definition Get_nilable `{Network} (ctx : option context_Context)
  (path : string) : M result :=
  srv <- field server ;;
  request_nilable ctx (srv ++ baseURLv3 ++ path).

Definition GetV1_nilable `{Network} (ctx : option context_Context)
  (path : string) : M result :=
  srv <- field server ;;
  request_nilable ctx (srv ++ baseURLv1 ++ path).

(** Calls with contexts that may be nil, and sequences of them. *)
Inductive call_nilable `{Network} : Type :=
| ncall_Get (ctx : option context_Context) (path : string)
| ncall_GetV1 (ctx : option context_Context) (path : string)
| ncall_request (ctx : option context_Context) (endpoint : string).

Definition run_call_nilable `{Network} (k : call_nilable) : M result :=
  match k with
  | ncall_Get ctx path => Get_nilable ctx path
  | ncall_GetV1 ctx path => GetV1_nilable ctx path
  | ncall_request ctx endpoint => request_nilable ctx endpoint
  end.

Fixpoint run_calls_nilable `{Network} (ks : list call_nilable)
  : M (list result) :=
  match ks with
  | [] => ret []
  | k :: ks' =>
      r <- run_call_nilable k ;;
      rs <- run_calls_nilable ks' ;;
      ret (r :: rs)
  end.

Definition ncall_ctx `{Network} (k : call_nilable)
  : option context_Context :=
  match k with
  | ncall_Get ctx _ | ncall_GetV1 ctx _ | ncall_request ctx _ => ctx
  end.

Definition ncall_endpoint `{Network} (c : Client) (k : call_nilable)
  : string :=
  match k with
  | ncall_Get _ path => server c ++ baseURLv3 ++ path
  | ncall_GetV1 _ path => server c ++ baseURLv1 ++ path
  | ncall_request _ endpoint => endpoint
  end.

(** A call with a context that is not nil, among the calls with contexts
    that may be. *)
Definition of_call `{Network} (k : call) : call_nilable :=
  match k with
  | call_Get ctx path => ncall_Get (Some ctx) path
  | call_GetV1 ctx path => ncall_GetV1 (Some ctx) path
  | call_request ctx endpoint => ncall_request (Some ctx) endpoint
  end.

(* ------------------------------------------------------------------ *)
(** ** The init command *)

Module cmd.

(** Modelled from the spec: the configuration loader of [internal/config]
    is not among the sources; it "signals whether the user chose to skip
    (re)generation". [Generate] returns nil, the sentinel [ErrSkip], or some
    other error. *)
Inductive config_error : Type :=
| ErrSkip
| ErrOther (msg : string).

Definition is_ErrSkip (err : config_error) : bool :=
  match err with
  | ErrSkip => true
  | ErrOther _ => false
  end.

(** How a run of the command's body ends: it returns to the command
    framework, or [os.Exit] ends the process with a status. *)
Inductive termination : Type :=
| Returned
| Exited (code : Z).

Definition ESC : string := String (ascii_of_nat 27) EmptyString.

(** The bytes of U+2713 (check mark) and of U+2717 (ballot x) in UTF-8. *)
Definition check_mark : string :=
  String (ascii_of_nat 226) (String (ascii_of_nat 156)
    (String (ascii_of_nat 147) EmptyString)).

Definition ballot_x : string :=
  String (ascii_of_nat 226) (String (ascii_of_nat 156)
    (String (ascii_of_nat 151) EmptyString)).

(** A line feed, then the mark in green, or in red. *)
Definition green_check : string :=
  LF ++ ESC ++ "[0;32m" ++ check_mark ++ ESC ++ "[0m".

Definition red_cross : string :=
  LF ++ ESC ++ "[0;31m" ++ ballot_x ++ ESC ++ "[0m".

(** [initialize], given what [c.Generate()] returns and what
    [viper.ConfigFileUsed()] answers: the chunks printed, and how the body
    ends. Nothing runs after [os.Exit(1)]. *)
Definition initialize (Generate : option config_error)
  (ConfigFileUsed : string) : list string * termination :=
  match Generate with
  | Some err =>
      let printed :=
        if is_ErrSkip err
        then [green_check ++ " Skipping config generation. Current config: "
                ++ ConfigFileUsed ++ LF]
        else [red_cross ++ " Unable to generate configuration: "
                ++ ConfigFileUsed ++ LF] in
      (printed, Exited 1)
  | None =>
      ([green_check ++ " Configuration generated: " ++ ConfigFileUsed ++ LF],
       Returned)
  end.

End cmd.

(* ------------------------------------------------------------------ *)
(** ** A concrete library and network, to run the client on *)

(** [net/url] refuses a URL holding an ASCII control character; this parser
    refuses nothing else and keeps the text as the parsed URL. *)
Definition is_CTL (ch : ascii) : bool :=
  (nat_of_ascii ch <? 32)%nat || (nat_of_ascii ch =? 127)%nat.

Fixpoint stringContainsCTLByte (s : string) : bool :=
  match s with
  | EmptyString => false
  | String ch s' => is_CTL ch || stringContainsCTLByte s'
  end.

Definition demo_Parse (rawurl : string) : string + string :=
  if stringContainsCTLByte rawurl
  then inl "net/url: invalid control character in URL"
  else inr rawurl.

Definition demo_library : Library :=
  {| url_URL := string;
     url_Parse := demo_Parse;
     context_Context := nat;
     context_Background := 0 |}.

(** A server that knows no resource: every round trip obtains a 404. The
    world counts the round trips made. *)
Definition demo_network : @Network demo_library :=
  {| World := nat;
     Transport_RoundTrip := fun _ _ w =>
       (inl {| StatusCode := 404; Body := "{}" |}, S w) |}.

Definition demo_config : Config :=
  {| Server := "https://example.atlassian.net/";
     Login := "user@example.com";
     APIToken := "tok123";
     Debug := true |}.

(** A configuration whose server ends in two slashes. *)
Definition two_slash_config : Config :=
  {| Server := "https://example.atlassian.net//";
     Login := "user@example.com";
     APIToken := "tok123";
     Debug := false |}.

(** A configuration with a control character in the server and with empty
    credentials. *)
Definition malformed_config : Config :=
  {| Server := "https://exam" ++ String (ascii_of_nat 1) "ple.atlassian.net";
     Login := "";
     APIToken := "";
     Debug := false |}.

(** The machine of a client built from [demo_config] with no option. *)
Definition demo_machine : @Machine demo_library demo_network :=
  @boot demo_library demo_network (NewClient demo_config []) 0.

(** The request that client sends for the issue ABC-1 under context 7. *)
Definition demo_request : @Request demo_library :=
  @built demo_library (NewClient demo_config []) 7
    "https://example.atlassian.net/rest/api/3/issue/ABC-1".

(** The same client with the debug flag off. *)
Definition quiet_machine : @Machine demo_library demo_network :=
  @boot demo_library demo_network
    (NewClient {| Server := Server demo_config; Login := Login demo_config;
                  APIToken := APIToken demo_config; Debug := false |} []) 0.

(** A network that is down: every round trip fails to connect. *)
Definition down_network : @Network demo_library :=
  {| World := nat;
     Transport_RoundTrip := fun _ _ w =>
       (inr "dial tcp: connect: connection refused", S w) |}.

Definition down_machine : @Machine demo_library down_network :=
  @boot demo_library down_network (NewClient demo_config []) 0.

(** The machine of the zero client. *)
Definition zero_machine : @Machine demo_library demo_network :=
  @boot demo_library demo_network zero_Client 0.

(** The machine of the client built from [malformed_config]. *)
Definition malformed_machine : @Machine demo_library demo_network :=
  @boot demo_library demo_network (NewClient malformed_config []) 0.

(** Three calls in a row on one client. *)
Definition demo_calls : list (@call demo_library demo_network) :=
  [ @call_Get demo_library demo_network 7 "/issue/ABC-1";
    @call_GetV1 demo_library demo_network 8 "/board/7/sprint";
    @call_request demo_library demo_network 9
      ("bad" ++ String (ascii_of_nat 127) EmptyString) ].

(** The same three calls, as calls whose contexts may be nil. *)
Definition demo_ncalls : list (@call_nilable demo_library demo_network) :=
  map (@of_call demo_library demo_network) demo_calls.

(* ================================================================== *)
(** * Part II: theorems *)

(* ------------------------------------------------------------------ *)
(** ** Strings: suffixes and trailing slashes *)

Section StringFacts.

Lemma length_append (s t : string) :
  length (s ++ t) = length s + length t.
Proof. induction s as [|c s IH]; simpl; [reflexivity | now rewrite IH]. Qed.

Lemma substring_all (s : string) : substring 0 (length s) s = s.
Proof. induction s as [|c s IH]; simpl; [reflexivity | now rewrite IH]. Qed.

Lemma substring_app_l (s t : string) :
  substring 0 (length s) (s ++ t) = s.
Proof.
  induction s as [|c s IH]; simpl.
  - destruct t; reflexivity.
  - now rewrite IH.
Qed.

Lemma substring_app_r (s t : string) :
  substring (length s) (length t) (s ++ t) = t.
Proof.
  induction s as [|c s IH]; simpl.
  - apply substring_all.
  - exact IH.
Qed.

(** Cutting a string at any position inside it loses nothing. *)
Lemma substring_split (s : string) :
  forall n, n <= length s ->
    s = substring 0 n s ++ substring n (length s - n) s.
Proof.
  induction s as [|c s IH]; intros n Hn; simpl in *.
  - destruct n; [reflexivity | lia].
  - destruct n as [|n]; simpl.
    + now rewrite substring_all.
    + f_equal. apply IH. lia.
Qed.

Lemma HasSuffix_app (s suffix : string) :
  strings.HasSuffix (s ++ suffix) suffix = true.
Proof.
  unfold strings.HasSuffix. rewrite length_append.
  replace (length s + length suffix - length suffix) with (length s) by lia.
  rewrite substring_app_r, String.eqb_refl.
  rewrite andb_true_r. apply Nat.leb_le. lia.
Qed.

Lemma HasSuffix_inv (s suffix : string) :
  strings.HasSuffix s suffix = true ->
  s = substring 0 (length s - length suffix) s ++ suffix.
Proof.
  unfold strings.HasSuffix. intros H.
  apply andb_true_iff in H. destruct H as [Hlen Heq].
  apply Nat.leb_le in Hlen. apply String.eqb_eq in Heq.
  pose proof (substring_split s (length s - length suffix)) as Hcut.
  replace (length s - (length s - length suffix)) with (length suffix)
    in Hcut by lia.
  rewrite Heq in Hcut. apply Hcut. lia.
Qed.

Lemma TrimSuffix_app (s suffix : string) :
  strings.TrimSuffix (s ++ suffix) suffix = s.
Proof.
  unfold strings.TrimSuffix. rewrite HasSuffix_app, length_append.
  replace (length s + length suffix - length suffix) with (length s) by lia.
  apply substring_app_l.
Qed.

Lemma TrimSuffix_no_suffix (s suffix : string) :
  strings.HasSuffix s suffix = false -> strings.TrimSuffix s suffix = s.
Proof. unfold strings.TrimSuffix. now intros ->. Qed.

Lemma trailing_slashes_le (s : string) : trailing_slashes s <= length s.
Proof.
  induction s as [|c s IH]; simpl; [lia|].
  destruct (Ascii.eqb c "/" && (trailing_slashes s =? length s)%nat); lia.
Qed.

Lemma trailing_slashes_snoc (s : string) :
  trailing_slashes (s ++ "/") = S (trailing_slashes s).
Proof.
  induction s as [|c s IH]; simpl; [reflexivity|].
  rewrite IH, length_append. simpl.
  replace (length s + 1) with (S (length s)) by lia.
  change (S (trailing_slashes s) =? S (length s))%nat
    with (trailing_slashes s =? length s)%nat.
  destruct (Ascii.eqb c "/" && (trailing_slashes s =? length s)%nat);
    reflexivity.
Qed.

Lemma HasSuffix_slash_false (s : string) :
  strings.HasSuffix s "/" = false -> trailing_slashes s = 0.
Proof.
  induction s as [|c s IH]; intros H; [reflexivity|].
  destruct s as [|d s].
  - unfold strings.HasSuffix in H. simpl in H. simpl.
    destruct (Ascii.eqb_spec c "/") as [->|Hc]; [discriminate | reflexivity].
  - assert (Hs : strings.HasSuffix (String d s) "/" = false).
    { unfold strings.HasSuffix in *. simpl in *.
      rewrite Nat.sub_0_r in *. exact H. }
    specialize (IH Hs). cbn [trailing_slashes] in *. rewrite IH.
    cbn [length]. rewrite andb_false_r. reflexivity.
Qed.

Lemma HasSuffix_slash_true (s : string) :
  strings.HasSuffix s "/" = true -> 0 < trailing_slashes s.
Proof.
  intros H. apply HasSuffix_inv in H.
  remember (substring 0 (length s - length "/") s) as s' eqn:E.
  clear E. subst s. rewrite trailing_slashes_snoc. lia.
Qed.

(** [TrimSuffix _ "/"] removes one trailing slash when there is one. *)
Lemma trailing_slashes_TrimSuffix (s : string) :
  trailing_slashes (strings.TrimSuffix s "/") = pred (trailing_slashes s).
Proof.
  destruct (strings.HasSuffix s "/") eqn:H.
  - apply HasSuffix_inv in H.
    remember (substring 0 (length s - length "/") s) as s' eqn:E.
    clear E. subst s.
    now rewrite TrimSuffix_app, trailing_slashes_snoc.
  - rewrite TrimSuffix_no_suffix by exact H.
    now rewrite HasSuffix_slash_false.
Qed.

End StringFacts.

(* ------------------------------------------------------------------ *)
(** ** Base64: the decoder inverts the encoder *)

Section Base64Facts.

Import base64.
Local Open Scope N_scope.

(** Divisions and remainders by constants, for [lia]. *)
Ltac lia_divmod := Z.to_euclidean_division_equations; lia.

Lemma decodeMap_encode (i : N) : i < 64 -> decodeMap (encode i) = Some i.
Proof.
  intros Hi.
  assert (Hall : forallb
            (fun n => match decodeMap (encode (N.of_nat n)) with
                      | Some j => N.eqb j (N.of_nat n)
                      | None => false
                      end) (seq 0 64) = true) by (vm_compute; reflexivity).
  rewrite forallb_forall in Hall.
  specialize (Hall (N.to_nat i)). rewrite N2Nat.id in Hall.
  destruct (decodeMap (encode i)) as [j|].
  - f_equal. apply N.eqb_eq, Hall, in_seq. lia.
  - discriminate Hall. apply in_seq. lia.
Qed.

Lemma decodeMap_padding : decodeMap StdPadding = None.
Proof. reflexivity. Qed.

Lemma sextet_lt (val k : N) : sextet val k < 64.
Proof. unfold sextet. apply N.mod_lt. discriminate. Qed.

Lemma byte_lt (a : ascii) : N_of_ascii a < 256.
Proof. apply N_ascii_bounded. Qed.

Lemma ascii_of_byte (n : N) (a : ascii) :
  n = N_of_ascii a -> ascii_of_N n = a.
Proof. intros ->. apply ascii_N_embedding. Qed.

Lemma octets_of_sextets (a b c : ascii) :
  let val := pack3 a b c in
  let val' := pack4 (sextet val 18) (sextet val 12)
                    (sextet val 6) (sextet val 0) in
  octet val' 16 = a /\ octet val' 8 = b /\ octet val' 0 = c.
Proof.
  intros val val'.
  assert (Hval : val' = val).
  { subst val'. unfold pack4, sextet.
    assert (val < 16777216).
    { subst val. unfold pack3.
      pose proof (byte_lt a). pose proof (byte_lt b). pose proof (byte_lt c).
      lia. }
    change (2 ^ 18) with 262144. change (2 ^ 12) with 4096.
    change (2 ^ 6) with 64. change (2 ^ 0) with 1.
    zify. lia_divmod. }
  rewrite Hval. subst val. unfold octet, pack3.
  pose proof (byte_lt a). pose proof (byte_lt b). pose proof (byte_lt c).
  change (2 ^ 16) with 65536. change (2 ^ 8) with 256.
  change (2 ^ 0) with 1.
  repeat split; apply ascii_of_byte; clear val' Hval; zify; lia_divmod.
Qed.

Lemma sextet_6_one_byte (a : ascii) : sextet (pack3 a NUL NUL) 6 = 0.
Proof.
  unfold sextet, pack3. change (N_of_ascii NUL) with 0.
  change (2 ^ 6) with 64. pose proof (byte_lt a). zify; lia_divmod.
Qed.

Lemma sextet_0_two_bytes (a b : ascii) : sextet (pack3 a b NUL) 0 = 0.
Proof.
  unfold sextet, pack3. change (N_of_ascii NUL) with 0.
  change (2 ^ 0) with 1. pose proof (byte_lt a). pose proof (byte_lt b).
  zify; lia_divmod.
Qed.

(** Induction on a string three bytes at a time, as the encoder reads it. *)
Lemma string_triples_ind (P : string -> Prop) :
  P EmptyString ->
  (forall a, P (String a EmptyString)) ->
  (forall a b, P (String a (String b EmptyString))) ->
  (forall a b c rest, P rest -> P (String a (String b (String c rest)))) ->
  forall s, P s.
Proof.
  intros H0 H1 H2 H3. fix IH 1.
  intros [|a [|b [|c rest]]]; [exact H0 | apply H1 | apply H2 |].
  apply H3, IH.
Qed.

Theorem DecodeString_EncodeToString (s : string) :
  DecodeString (EncodeToString s) = Some s.
Proof.
  induction s as [|a|a b|a b c rest IH] using string_triples_ind.
  - reflexivity.
  - cbn [EncodeToString DecodeString].
    rewrite !decodeMap_encode by apply sextet_lt.
    rewrite decodeMap_padding. cbn [Ascii.eqb String.eqb andb].
    rewrite Ascii.eqb_refl. cbn [andb].
    destruct (octets_of_sextets a NUL NUL) as (Ha & _ & _).
    rewrite sextet_6_one_byte, sextet_0_two_bytes in Ha.
    now rewrite Ha.
  - cbn [EncodeToString DecodeString].
    rewrite !decodeMap_encode by apply sextet_lt.
    rewrite decodeMap_padding. rewrite Ascii.eqb_refl. cbn [String.eqb andb].
    destruct (octets_of_sextets a b NUL) as (Ha & Hb & _).
    rewrite sextet_0_two_bytes in Ha, Hb.
    now rewrite Ha, Hb.
  - cbn [EncodeToString DecodeString].
    rewrite !decodeMap_encode by apply sextet_lt.
    rewrite IH. cbn [option_map].
    destruct (octets_of_sextets a b c) as (Ha & Hb & Hc).
    now rewrite Ha, Hb, Hc.
Qed.

End Base64Facts.

(* ------------------------------------------------------------------ *)
(** ** Construction: [NewClient] and its options *)

Section Construction.

Variable cfg : Config.

(** The client as it stands when the options start to run. *)
Lemma NewClient_no_options :
  NewClient cfg [] =
    {| transport := Some {| Proxy := Some ProxyFromEnvironment;
                            DialContext := {| Timeout := 0%Z |} |};
       server := strings.TrimSuffix (Server cfg) "/";
       login := Login cfg;
       token := APIToken cfg;
       timeout := 0%Z;
       debug := Debug cfg |}.
Proof. reflexivity. Qed.

Lemma apply_opts_app (opts1 opts2 : list ClientFunc) (c : Client) :
  apply_opts (opts1 ++ opts2) c = apply_opts opts2 (apply_opts opts1 c).
Proof. unfold apply_opts. apply fold_left_app. Qed.

Lemma NewClient_apply_opts (opts : list ClientFunc) :
  NewClient cfg opts = apply_opts opts (NewClient cfg []).
Proof. reflexivity. Qed.

Lemma NewClient_app (opts1 opts2 : list ClientFunc) :
  NewClient cfg (opts1 ++ opts2) = apply_opts opts2 (NewClient cfg opts1).
Proof. unfold NewClient. cbn zeta. apply apply_opts_app. Qed.

Lemma NewClient_snoc (opts : list ClientFunc) (opt : ClientFunc) :
  NewClient cfg (opts ++ [opt]) = opt (NewClient cfg opts).
Proof. now rewrite NewClient_app. Qed.

Lemma last_cons_default {A : Type} (l : list A) :
  forall x d d', last (x :: l) d = last (x :: l) d'.
Proof.
  induction l as [|y l IH]; intros x d d'; [reflexivity|].
  change (last (y :: l) d = last (y :: l) d'). apply IH.
Qed.

(** [WithTimeout] options touch the [timeout] field and nothing else. *)
Lemma apply_WithTimeout_frame (ds : list Duration) (c : Client) :
  let c' := apply_opts (map WithTimeout ds) c in
  transport c' = transport c /\ server c' = server c /\
  login c' = login c /\ token c' = token c /\ debug c' = debug c /\
  timeout c' = last ds (timeout c).
Proof.
  revert c. induction ds as [|d ds IH]; intros c; cbn zeta.
  - repeat split.
  - change (apply_opts (map WithTimeout (d :: ds)) c)
      with (apply_opts (map WithTimeout ds) (WithTimeout d c)).
    destruct (IH (WithTimeout d c)) as (Ht & Hs & Hl & Hk & Hd & Hto).
    rewrite Ht, Hs, Hl, Hk, Hd, Hto. repeat split.
    destruct ds as [|d' ds]; [reflexivity|].
    change (last (d :: d' :: ds) (timeout c))
      with (last (d' :: ds) (timeout c)).
    apply last_cons_default.
Qed.

Lemma NewClient_WithTimeout_server (ds : list Duration) :
  server (NewClient cfg (map WithTimeout ds)) =
  strings.TrimSuffix (Server cfg) "/".
Proof.
  rewrite (NewClient_apply_opts (map WithTimeout ds)).
  now destruct (apply_WithTimeout_frame ds (NewClient cfg [])) as (_ & -> & _).
Qed.

Lemma NewClient_WithTimeout_transport (ds : list Duration) :
  transport (NewClient cfg (map WithTimeout ds)) =
  Some {| Proxy := Some ProxyFromEnvironment;
          DialContext := {| Timeout := 0%Z |} |}.
Proof.
  rewrite (NewClient_apply_opts (map WithTimeout ds)).
  now destruct (apply_WithTimeout_frame ds (NewClient cfg [])) as (-> & _).
Qed.

(** In general the server field has one trailing slash fewer than the
    configured server, and none fewer when there is none. *)
Lemma NewClient_server_trailing_slashes (ds : list Duration) :
  trailing_slashes (server (NewClient cfg (map WithTimeout ds))) =
  pred (trailing_slashes (Server cfg)).
Proof.
  rewrite NewClient_WithTimeout_server. apply trailing_slashes_TrimSuffix.
Qed.

End Construction.

(* ------------------------------------------------------------------ *)
(** ** Running [request], [Get] and [GetV1] *)

Section Requests.

Context `{Network}.

(** One equation for all runs of [request]. *)
Lemma request_run (ctx : context_Context) (endpoint : string) (m : Machine) :
  request ctx endpoint m =
    match url_Parse endpoint with
    | inl msg => (Returns (None, Some (url_Error msg)), traced m endpoint)
    | inr u =>
        RoundTrip (transport (receiver m)) (built (receiver m) ctx u)
          (traced m endpoint)
    end.
Proof.
  unfold request, traced, bind, field, http_NewRequest.
  destruct (debug (receiver m)); cbn;
    destruct (url_Parse endpoint) as [msg|u]; reflexivity.
Qed.

Lemma Get_run (ctx : context_Context) (path : string) (m : Machine) :
  Get ctx path m = request ctx (server (receiver m) ++ baseURLv3 ++ path) m.
Proof. reflexivity. Qed.

Lemma GetV1_run (ctx : context_Context) (path : string) (m : Machine) :
  GetV1 ctx path m = request ctx (server (receiver m) ++ baseURLv1 ++ path) m.
Proof. reflexivity. Qed.

Lemma traced_receiver (m : Machine) (endpoint : string) :
  receiver (traced m endpoint) = receiver m.
Proof. unfold traced. now destruct (debug (receiver m)). Qed.

Lemma traced_sent (m : Machine) (endpoint : string) :
  sent (traced m endpoint) = sent m.
Proof. unfold traced. now destruct (debug (receiver m)). Qed.

Lemma traced_world (m : Machine) (endpoint : string) :
  world (traced m endpoint) = world m.
Proof. unfold traced. now destruct (debug (receiver m)). Qed.

Lemma traced_stdout (m : Machine) (endpoint : string) :
  stdout (traced m endpoint) =
  (stdout m ++ if debug (receiver m)
               then [trace_line endpoint] else [])%list.
Proof.
  unfold traced. destruct (debug (receiver m)); cbn; [reflexivity|].
  now rewrite app_nil_r.
Qed.

(** [RoundTrip] leaves the receiver and standard output alone. *)
Lemma RoundTrip_receiver (rt : RoundTripper) (req : Request) (m : Machine) :
  receiver (snd (RoundTrip rt req m)) = receiver m.
Proof.
  unfold RoundTrip. destruct rt as [t|]; [|reflexivity].
  now destruct (Transport_RoundTrip t req (world m)).
Qed.

Lemma RoundTrip_stdout (rt : RoundTripper) (req : Request) (m : Machine) :
  stdout (snd (RoundTrip rt req m)) = stdout m.
Proof.
  unfold RoundTrip. destruct rt as [t|]; [|reflexivity].
  now destruct (Transport_RoundTrip t req (world m)).
Qed.

Lemma RoundTrip_sent (rt : RoundTripper) (req : Request) (m : Machine) :
  sent (snd (RoundTrip rt req m)) =
  (sent m ++ match rt with Some _ => [req] | None => [] end)%list.
Proof.
  unfold RoundTrip. destruct rt as [t|]; cbn.
  - now destruct (Transport_RoundTrip t req (world m)).
  - now rewrite app_nil_r.
Qed.

(** What [RoundTrip] returns: the transport's answer, response or error. *)
Lemma RoundTrip_outcome (t : http_Transport) (req : Request) (m : Machine) :
  fst (RoundTrip (Some t) req m) =
  Returns match fst (Transport_RoundTrip t req (world m)) with
          | inl res => (Some res, None)
          | inr msg => (None, Some (net_Error msg))
          end.
Proof.
  unfold RoundTrip. now destruct (Transport_RoundTrip t req (world m)).
Qed.

(** *** Frame: the receiver *)

Lemma request_receiver (ctx : context_Context) (endpoint : string)
  (m : Machine) :
  receiver (snd (request ctx endpoint m)) = receiver m.
Proof.
  rewrite request_run. destruct (url_Parse endpoint) as [msg|u]; cbn [snd].
  - apply traced_receiver.
  - rewrite RoundTrip_receiver. apply traced_receiver.
Qed.

Lemma run_call_receiver (c : call) (m : Machine) :
  receiver (snd (run_call c m)) = receiver m.
Proof.
  destruct c as [ctx path|ctx path|ctx endpoint]; cbn [run_call];
    rewrite ?Get_run, ?GetV1_run; apply request_receiver.
Qed.

Lemma run_calls_receiver (cs : list call) :
  forall m, receiver (snd (run_calls cs m)) = receiver m.
Proof.
  induction cs as [|c cs IH]; intros m; [reflexivity|].
  cbn [run_calls]. unfold bind at 1.
  pose proof (run_call_receiver c m) as Hc.
  destruct (run_call c m) as [[r|msg] m1]; cbn [snd] in *; [|exact Hc].
  unfold bind at 1. specialize (IH m1).
  destruct (run_calls cs m1) as [[rs|msg] m2]; unfold ret; cbn [snd] in *;
    congruence.
Qed.

(** *** The requests handed to the transport *)

Lemma skipn_length_app {A : Type} (l l' : list A) :
  skipn (List.length l) (l ++ l')%list = l'.
Proof. induction l as [|x l IH]; [reflexivity | exact IH]. Qed.

Lemma request_sent (ctx : context_Context) (endpoint : string) (m : Machine) :
  sent (snd (request ctx endpoint m)) =
  (sent m ++ requests_of (receiver m) ctx endpoint)%list.
Proof.
  rewrite request_run. unfold requests_of.
  destruct (url_Parse endpoint) as [msg|u]; cbn [snd].
  - now rewrite traced_sent, app_nil_r.
  - rewrite RoundTrip_sent, traced_sent.
    now destruct (transport (receiver m)).
Qed.

Lemma request_sent_by (ctx : context_Context) (endpoint : string)
  (m : Machine) :
  sent_by (request ctx endpoint) m = requests_of (receiver m) ctx endpoint.
Proof. unfold sent_by. rewrite request_sent. apply skipn_length_app. Qed.

Lemma requests_of_In (c : Client) (ctx : context_Context) (endpoint : string)
  (req : Request) :
  In req (requests_of c ctx endpoint) ->
  url_Parse endpoint = inr (URL req) /\ req = built c ctx (URL req).
Proof.
  unfold requests_of.
  destruct (url_Parse endpoint) as [msg|u]; [intros []|].
  destruct (transport c); [|intros []].
  intros [<-|[]]. split; reflexivity.
Qed.

(** *** Standard output *)

Lemma request_stdout (ctx : context_Context) (endpoint : string)
  (m : Machine) :
  stdout (snd (request ctx endpoint m)) =
  (stdout m ++ if debug (receiver m)
               then [trace_line endpoint] else [])%list.
Proof.
  rewrite request_run. destruct (url_Parse endpoint) as [msg|u]; cbn [snd].
  - apply traced_stdout.
  - rewrite RoundTrip_stdout. apply traced_stdout.
Qed.

Lemma request_printed_by (ctx : context_Context) (endpoint : string)
  (m : Machine) :
  printed_by (request ctx endpoint) m =
  if debug (receiver m) then [trace_line endpoint] else [].
Proof. unfold printed_by. rewrite request_stdout. apply skipn_length_app. Qed.

(** *** What is returned *)

(** [request] returns the parse error, or what the transport answers. *)
Lemma request_outcome (ctx : context_Context) (endpoint : string)
  (m : Machine) (t : http_Transport) :
  transport (receiver m) = Some t ->
  fst (request ctx endpoint m) =
  Returns match url_Parse endpoint with
          | inl msg => (None, Some (url_Error msg))
          | inr u =>
              match fst (Transport_RoundTrip t (built (receiver m) ctx u)
                           (world m)) with
              | inl res => (Some res, None)
              | inr msg => (None, Some (net_Error msg))
              end
          end.
Proof.
  intros Ht. rewrite request_run.
  destruct (url_Parse endpoint) as [msg|u]; [reflexivity|].
  now rewrite Ht, RoundTrip_outcome, traced_world.
Qed.

(** Whatever the client, [request] never returns one of the sentinels. *)
Lemma request_no_sentinel (ctx : context_Context) (endpoint : string)
  (m : Machine) (res : option Response) (err : error) :
  fst (request ctx endpoint m) = Returns (res, Some err) ->
  is_sentinel err = false.
Proof.
  rewrite request_run.
  destruct (url_Parse endpoint) as [msg|u]; cbn [fst].
  - intros [= _ <-]. reflexivity.
  - unfold RoundTrip. destruct (transport (receiver m)) as [t|];
      [|discriminate].
    destruct (Transport_RoundTrip t _ _) as [[r|msg] w]; cbn [fst].
    + discriminate.
    + intros [= _ <-]. reflexivity.
Qed.

End Requests.

(* ------------------------------------------------------------------ *)
(** ** Substrings *)

Section ContainsFacts.

Lemma prefix_app (s t : string) : prefix s (s ++ t) = true.
Proof.
  induction s as [|c s IH]; cbn.
  - now destruct t.
  - destruct (ascii_dec c c) as [_|Hc]; [exact IH | now elim Hc].
Qed.

Lemma Contains_prefix (s sub : string) :
  prefix sub s = true -> strings.Contains s sub = true.
Proof. intros Hp. destruct s; cbn [strings.Contains]; now rewrite Hp. Qed.

Lemma Contains_app_r (a s sub : string) :
  strings.Contains s sub = true -> strings.Contains (a ++ s) sub = true.
Proof.
  intros Hs. induction a as [|c a IH]; [exact Hs|].
  cbn [append strings.Contains]. rewrite IH. apply orb_true_r.
Qed.

(** The trace line holds the endpoint it announces. *)
Lemma trace_line_Contains (endpoint : string) :
  strings.Contains (trace_line endpoint) endpoint = true.
Proof.
  unfold trace_line. apply Contains_app_r, Contains_prefix, prefix_app.
Qed.

Lemma trailing_slashes_0_HasSuffix (s : string) :
  trailing_slashes s = 0 -> strings.HasSuffix s "/" = false.
Proof.
  intros Hz. destruct (strings.HasSuffix s "/") eqn:Hs; [|reflexivity].
  apply HasSuffix_slash_true in Hs. lia.
Qed.

End ContainsFacts.

(* ------------------------------------------------------------------ *)
(** ** Constructed clients return *)

Section Returning.

Context `{Network}.

(** On a client built by [NewClient] with [WithTimeout] options the
    operations always return: the transport is there, so nothing panics. *)
Lemma constructed_client_returns
  (cfg : Config) (ds : list Duration) (w : World)
  (ctx : context_Context) (endpoint : string) :
  exists r : result,
    fst (request ctx endpoint (boot (NewClient cfg (map WithTimeout ds)) w))
    = Returns r.
Proof.
  eexists. apply request_outcome.
  cbn [boot receiver]. apply NewClient_WithTimeout_transport.
Qed.

Lemma constructed_client_Get_returns
  (cfg : Config) (ds : list Duration) (w : World)
  (ctx : context_Context) (p : string) :
  (exists r : result,
     fst (Get ctx p (boot (NewClient cfg (map WithTimeout ds)) w))
     = Returns r) /\
  (exists r : result,
     fst (GetV1 ctx p (boot (NewClient cfg (map WithTimeout ds)) w))
     = Returns r).
Proof.
  rewrite Get_run, GetV1_run. split; apply constructed_client_returns.
Qed.

End Returning.

(** A server the URL parser refuses and empty credentials: the client is
    constructed all the same, and the first request reports the parse
    error without reaching the transport. *)
Example malformed_server_surfaces_at_Get :
  let c := NewClient malformed_config [] in
  server c = Server malformed_config /\
  login c = "" /\ token c = "" /\
  @Get demo_library demo_network 7 "/issue/ABC-1"
    (@boot demo_library demo_network c 0)
  = (Returns (None,
              Some (url_Error "net/url: invalid control character in URL")),
     @boot demo_library demo_network c 0).
Proof. repeat split. Qed.

(* ================================================================== *)
(** * Part III: the claims of the specification *)

(* ------------------------------------------------------------------ *)
(** ** Construction *)

(** C1, as stated, fails: [strings.TrimSuffix] removes one slash. A server
    ending in two slashes leaves a client whose server field still ends in
    one, and the version prefix then follows a double slash; so not every
    server string ending in slashes yields a field with none. *)
Lemma NewClient_keeps_second_slash :
  trailing_slashes (Server two_slash_config) = 2 /\
  server (NewClient two_slash_config []) = "https://example.atlassian.net/" /\
  trailing_slashes (server (NewClient two_slash_config [])) = 1 /\
  server (NewClient two_slash_config []) ++ baseURLv3 =
    "https://example.atlassian.net//rest/api/3" /\
  ~ (forall cfg : Config,
       1 <= trailing_slashes (Server cfg) ->
       trailing_slashes (server (NewClient cfg [])) = 0).
Proof.
  repeat split; try reflexivity.
  intros Hall. specialize (Hall two_slash_config).
  assert (Hin : 1 <= trailing_slashes (Server two_slash_config))
    by (vm_compute; lia).
  apply Hall in Hin. vm_compute in Hin. discriminate Hin.
Qed.

(** C1, amended: NewClient removes exactly one trailing slash. For every
    server string with [S n] trailing slashes the client built by NewClient,
    with any [WithTimeout] options, has a server field with [n] of them; so
    a server ending in exactly one slash yields a field with none, which
    does not end in a slash, and the version prefix adds no double slash. *)
Theorem NewClient_trims_one_trailing_slash
  (cfg : Config) (ds : list Duration) (n : nat) :
  trailing_slashes (Server cfg) = S n ->
  let c := NewClient cfg (map WithTimeout ds) in
  trailing_slashes (server c) = n /\
  (n = 0 -> strings.HasSuffix (server c) "/" = false).
Proof.
  intros Hn c.
  assert (Hc : trailing_slashes (server c) = n).
  { subst c. rewrite NewClient_server_trailing_slashes, Hn. reflexivity. }
  split; [exact Hc|].
  intros ->. now apply trailing_slashes_0_HasSuffix.
Qed.

Lemma NewClient_trims_one_trailing_slash_witness :
  trailing_slashes (Server demo_config) = 1 /\
  trailing_slashes (server (NewClient demo_config (map WithTimeout []))) = 0 /\
  strings.HasSuffix (server (NewClient demo_config (map WithTimeout []))) "/"
    = false.
Proof.
  split; [reflexivity|].
  destruct (NewClient_trims_one_trailing_slash demo_config [] 0 eq_refl)
    as [Hz Hs].
  split; [exact Hz | exact (Hs eq_refl)].
Defined.

(** C2 fails on the code: the dialer of the transport is built from the
    client's timeout field before any option has run, when the field is
    still zero. [WithTimeout d] then sets the field, which nothing reads,
    and the dialer keeps timeout zero, whatever [d]. Without the option the
    dialer has timeout zero as well. *)
Theorem WithTimeout_never_reaches_dialer (cfg : Config) (d : Duration) :
  timeout (NewClient cfg [WithTimeout d]) = d /\
  dial_timeout (NewClient cfg [WithTimeout d]) = Some 0%Z /\
  dial_timeout (NewClient cfg []) = Some 0%Z.
Proof. repeat split. Qed.

(** The same at a timeout of five seconds. *)
Example WithTimeout_five_seconds :
  dial_timeout (NewClient demo_config [WithTimeout (5 * Second)%Z]) = Some 0%Z
  /\ timeout (NewClient demo_config [WithTimeout (5 * Second)%Z])
     = 5000000000%Z.
Proof. split; reflexivity. Qed.

(** C6, as stated, fails: an option is a function value, which may be nil,
    and NewClient calls every option it is given. With a nil option it
    panics at the call and returns no client; so NewClient does not return
    a client for every list of options. *)
Lemma NewClient_nil_option_panics :
  NewClient_values demo_config [nil_ClientFunc] =
    Panics "invalid memory address or nil pointer dereference" /\
  NewClient_values malformed_config
    [returning (WithTimeout Second); nil_ClientFunc] =
    Panics "invalid memory address or nil pointer dereference" /\
  ~ (forall (cfg : Config) (opts : list ClientFunc_value),
       exists c : Client, NewClient_values cfg opts = Returns c).
Proof.
  split; [reflexivity|]. split; [reflexivity|].
  intros Hall. destruct (Hall demo_config [nil_ClientFunc]) as [c Hc].
  discriminate Hc.
Qed.

Lemma range_opts_returning (opts : list ClientFunc_value) :
  Forall (fun opt => forall c, exists c', call_ClientFunc opt c = Returns c')
    opts ->
  forall client : Client,
    range_opts opts client = Returns (apply_opts (map effect opts) client).
Proof.
  induction 1 as [|opt opts Hopt _ IH]; intros client; [reflexivity|].
  cbn [range_opts map]. destruct (Hopt client) as [c' Hc'].
  change (apply_opts (effect opt :: map effect opts) client)
    with (apply_opts (map effect opts) (effect opt client)).
  unfold effect at 2. rewrite Hc'. apply IH.
Qed.

Lemma range_opts_map_returning (opts : list ClientFunc) :
  forall client : Client,
    range_opts (map returning opts) client = Returns (apply_opts opts client).
Proof.
  induction opts as [|opt opts IH]; intros client; [reflexivity|].
  cbn [map range_opts returning call_ClientFunc]. apply IH.
Qed.

(** On options that always return, NewClient on values is [NewClient]. *)
Lemma NewClient_values_returning (cfg : Config) (opts : list ClientFunc) :
  NewClient_values cfg (map returning opts) = Returns (NewClient cfg opts).
Proof.
  unfold NewClient_values, NewClient. cbv zeta.
  apply range_opts_map_returning.
Qed.

(** C6, amended: NewClient has no error result and validates nothing. For
    every configuration, whatever its server and credentials, and every
    list of options each of which is not nil and returns on every client,
    NewClient returns a client: the one obtained by running the options in
    order on the client made of the trimmed server, the login, the token,
    the debug flag and the default transport. *)
Theorem NewClient_returns_when_options_return
  (cfg : Config) (opts : list ClientFunc_value) :
  Forall (fun opt => forall c, exists c', call_ClientFunc opt c = Returns c')
    opts ->
  NewClient_values cfg opts =
    Returns
      (apply_opts (map effect opts)
         {| transport := Some {| Proxy := Some ProxyFromEnvironment;
                                 DialContext := {| Timeout := 0%Z |} |};
            server := strings.TrimSuffix (Server cfg) "/";
            login := Login cfg;
            token := APIToken cfg;
            timeout := 0%Z;
            debug := Debug cfg |}).
Proof.
  intros Hopts. unfold NewClient_values. cbv zeta.
  now rewrite (range_opts_returning opts Hopts).
Qed.

Lemma NewClient_returns_when_options_return_witness :
  Forall (fun opt => forall c, exists c', call_ClientFunc opt c = Returns c')
    [returning (WithTimeout (5 * Second)%Z)] /\
  NewClient_values malformed_config [returning (WithTimeout (5 * Second)%Z)]
    = Returns
        {| transport := Some {| Proxy := Some ProxyFromEnvironment;
                                DialContext := {| Timeout := 0%Z |} |};
           server := Server malformed_config;
           login := EmptyString;
           token := EmptyString;
           timeout := 5000000000%Z;
           debug := false |}.
Proof.
  assert (Hopts : Forall
            (fun opt => forall c, exists c', call_ClientFunc opt c = Returns c')
            [returning (WithTimeout (5 * Second)%Z)]).
  { constructor; [|constructor]. intros c. eexists. reflexivity. }
  split; [exact Hopts|].
  exact (NewClient_returns_when_options_return malformed_config
           [returning (WithTimeout (5 * Second)%Z)] Hopts).
Defined.

(** C7. Options run in the order given, each on the client the earlier
    ones left: the last option of a list is applied to the client built
    from the options before it. Hence a [WithTimeout] at the end decides
    the timeout field, and of two [WithTimeout] options the second wins. *)
Theorem NewClient_options_in_order (cfg : Config) :
  (forall (opts : list ClientFunc) (opt : ClientFunc),
     NewClient cfg (opts ++ [opt]) = opt (NewClient cfg opts)) /\
  (forall (opts : list ClientFunc) (d : Duration),
     timeout (NewClient cfg (opts ++ [WithTimeout d])) = d) /\
  (forall d1 d2 : Duration,
     timeout (NewClient cfg [WithTimeout d1; WithTimeout d2]) = d2).
Proof.
  split; [|split].
  - intros opts opt. apply NewClient_snoc.
  - intros opts d. now rewrite NewClient_snoc.
  - intros d1 d2. reflexivity.
Qed.

(* ------------------------------------------------------------------ *)
(** ** Requests *)

Section RequestClaims.

Context `{Network}.

Lemma Get_sent_by (ctx : context_Context) (p : string) (m : Machine) :
  sent_by (Get ctx p) m =
  requests_of (receiver m) ctx (server (receiver m) ++ baseURLv3 ++ p).
Proof.
  exact (request_sent_by ctx (server (receiver m) ++ baseURLv3 ++ p) m).
Qed.

Lemma GetV1_sent_by (ctx : context_Context) (p : string) (m : Machine) :
  sent_by (GetV1 ctx p) m =
  requests_of (receiver m) ctx (server (receiver m) ++ baseURLv1 ++ p).
Proof.
  exact (request_sent_by ctx (server (receiver m) ++ baseURLv1 ++ p) m).
Qed.

Lemma Get_printed_by (ctx : context_Context) (p : string) (m : Machine) :
  printed_by (Get ctx p) m =
  if debug (receiver m)
  then [trace_line (server (receiver m) ++ baseURLv3 ++ p)] else [].
Proof.
  exact (request_printed_by ctx (server (receiver m) ++ baseURLv3 ++ p) m).
Qed.

Lemma GetV1_printed_by (ctx : context_Context) (p : string) (m : Machine) :
  printed_by (GetV1 ctx p) m =
  if debug (receiver m)
  then [trace_line (server (receiver m) ++ baseURLv1 ++ p)] else [].
Proof.
  exact (request_printed_by ctx (server (receiver m) ++ baseURLv1 ++ p) m).
Qed.

(** C3. Every request Get hands to the transport is a GET whose URL is
    the parse of server + "/rest/api/3" + path, and whenever that text
    parses and the client has a transport, Get sends exactly that one
    request; likewise GetV1 with "/rest/agile/1.0". *)
Theorem Get_requests_versioned_url
  (m : Machine) (ctx : context_Context) (p : string) :
  let srv := server (receiver m) in
  (forall req, In req (sent_by (Get ctx p) m) ->
     Method req = "GET" /\
     url_Parse (srv ++ "/rest/api/3" ++ p) = inr (URL req)) /\
  (forall t u, transport (receiver m) = Some t ->
     url_Parse (srv ++ "/rest/api/3" ++ p) = inr u ->
     exists req, sent_by (Get ctx p) m = [req] /\ URL req = u) /\
  (forall req, In req (sent_by (GetV1 ctx p) m) ->
     Method req = "GET" /\
     url_Parse (srv ++ "/rest/agile/1.0" ++ p) = inr (URL req)) /\
  (forall t u, transport (receiver m) = Some t ->
     url_Parse (srv ++ "/rest/agile/1.0" ++ p) = inr u ->
     exists req, sent_by (GetV1 ctx p) m = [req] /\ URL req = u).
Proof.
  intros srv. rewrite Get_sent_by, GetV1_sent_by. fold srv.
  change baseURLv3 with "/rest/api/3".
  change baseURLv1 with "/rest/agile/1.0".
  split; [|split; [|split]].
  - intros req Hin. apply requests_of_In in Hin.
    destruct Hin as [Hu Hreq]. split; [now rewrite Hreq | exact Hu].
  - intros t u Ht Hu. unfold requests_of. rewrite Hu, Ht. eauto.
  - intros req Hin. apply requests_of_In in Hin.
    destruct Hin as [Hu Hreq]. split; [now rewrite Hreq | exact Hu].
  - intros t u Ht Hu. unfold requests_of. rewrite Hu, Ht. eauto.
Qed.

(** C4. Every request that Get or GetV1 hands to the transport, whatever
    the path, has the Authorization header "Basic " followed by the base64
    encoding of login ":" token, which decodes to exactly that text. *)
Theorem requests_carry_basic_auth
  (m : Machine) (ctx : context_Context) (p : string) (req : Request) :
  In req (sent_by (Get ctx p) m) \/ In req (sent_by (GetV1 ctx p) m) ->
  let c := receiver m in
  Header_Get (Header req) "Authorization" =
    "Basic " ++ basicAuth (login c) (token c) /\
  base64.DecodeString (basicAuth (login c) (token c)) =
    Some (login c ++ ":" ++ token c).
Proof.
  intros Hin c. split; [|apply DecodeString_EncodeToString].
  rewrite Get_sent_by, GetV1_sent_by in Hin.
  destruct Hin as [Hin|Hin]; apply requests_of_In in Hin;
    destruct Hin as [_ ->]; reflexivity.
Qed.

(** C5. Get and GetV1 never return ErrNoResult, ErrEmptyResponse or
    ErrUnexpectedStatusCode, for a client built from any configuration and
    any options; and a response the transport obtains, whatever its status
    code, is returned as it is with a nil error. *)
Theorem Get_returns_transport_outcome
  (cfg : Config) (opts : list ClientFunc) (m : Machine)
  (ctx : context_Context) (p : string) :
  receiver m = NewClient cfg opts ->
  (forall res err,
     fst (Get ctx p m) = Returns (res, Some err) \/
     fst (GetV1 ctx p m) = Returns (res, Some err) ->
     err <> ErrNoResult /\ err <> ErrEmptyResponse /\
     err <> ErrUnexpectedStatusCode) /\
  (forall t u resp w,
     transport (receiver m) = Some t ->
     url_Parse (server (receiver m) ++ baseURLv3 ++ p) = inr u ->
     Transport_RoundTrip t (built (receiver m) ctx u) (world m)
       = (inl resp, w) ->
     fst (Get ctx p m) = Returns (Some resp, None)) /\
  (forall t u resp w,
     transport (receiver m) = Some t ->
     url_Parse (server (receiver m) ++ baseURLv1 ++ p) = inr u ->
     Transport_RoundTrip t (built (receiver m) ctx u) (world m)
       = (inl resp, w) ->
     fst (GetV1 ctx p m) = Returns (Some resp, None)).
Proof.
  intros _. rewrite Get_run, GetV1_run. split; [|split].
  - intros res err [Hr|Hr]; apply request_no_sentinel in Hr;
      destruct err; try discriminate Hr; repeat split; discriminate.
  - intros t u resp w Ht Hu Hrt.
    rewrite (request_outcome _ _ _ t Ht), Hu, Hrt. reflexivity.
  - intros t u resp w Ht Hu Hrt.
    rewrite (request_outcome _ _ _ t Ht), Hu, Hrt. reflexivity.
Qed.

(** C8. With the debug flag set, a call of Get or GetV1 writes one line,
    "Requesting: " followed by the URL it requests, which the line thus
    contains; with the flag clear it writes nothing. *)
Theorem debug_flag_decides_trace
  (m : Machine) (ctx : context_Context) (p : string) :
  let url3 := server (receiver m) ++ baseURLv3 ++ p in
  let url1 := server (receiver m) ++ baseURLv1 ++ p in
  (debug (receiver m) = true ->
     printed_by (Get ctx p) m = [trace_line url3] /\
     printed_by (GetV1 ctx p) m = [trace_line url1] /\
     strings.Contains (trace_line url3) url3 = true /\
     strings.Contains (trace_line url1) url1 = true) /\
  (debug (receiver m) = false ->
     printed_by (Get ctx p) m = [] /\ printed_by (GetV1 ctx p) m = []).
Proof.
  intros url3 url1. rewrite Get_printed_by, GetV1_printed_by.
  fold url3 url1.
  split; intros ->; repeat split; apply trace_line_Contains.
Qed.

(** C9. No sequence of calls of Get, GetV1 and request changes the client:
    after the calls, on any machine, the receiver is the client it was; in
    particular a client built by NewClient keeps every field it had at the
    end of construction. *)
Theorem operations_do_not_mutate_client (cs : list call) :
  (forall m : Machine, receiver (snd (run_calls cs m)) = receiver m) /\
  (forall (cfg : Config) (opts : list ClientFunc) (w : World),
     let c := receiver (snd (run_calls cs (boot (NewClient cfg opts) w))) in
     c = NewClient cfg opts /\
     transport c = transport (NewClient cfg opts) /\
     server c = server (NewClient cfg opts) /\
     login c = login (NewClient cfg opts) /\
     token c = token (NewClient cfg opts) /\
     timeout c = timeout (NewClient cfg opts) /\
     debug c = debug (NewClient cfg opts)).
Proof.
  split; [apply run_calls_receiver|].
  intros cfg opts w c.
  assert (Hc : c = NewClient cfg opts)
    by (subst c; now rewrite run_calls_receiver).
  rewrite Hc. repeat split.
Qed.

End RequestClaims.

(* ------------------------------------------------------------------ *)
(** ** The claims about requests, run on the concrete network *)

Lemma Get_requests_versioned_url_witness :
  (exists req,
     sent_by (@Get demo_library demo_network 7 "/issue/ABC-1") demo_machine
       = [req] /\
     @URL demo_library req
       = "https://example.atlassian.net/rest/api/3/issue/ABC-1") /\
  (exists req,
     sent_by (@GetV1 demo_library demo_network 7 "/board/7/sprint")
       demo_machine = [req] /\
     @URL demo_library req
       = "https://example.atlassian.net/rest/agile/1.0/board/7/sprint").
Proof.
  split.
  - pose proof (Get_requests_versioned_url demo_machine 7 "/issue/ABC-1")
      as Hw.
    cbv zeta in Hw. destruct Hw as (_ & Hsend & _ & _).
    apply (Hsend {| Proxy := Some ProxyFromEnvironment;
                    DialContext := {| Timeout := 0%Z |} |});
      reflexivity.
  - pose proof (Get_requests_versioned_url demo_machine 7 "/board/7/sprint")
      as Hw.
    cbv zeta in Hw. destruct Hw as (_ & _ & _ & Hsend).
    apply (Hsend {| Proxy := Some ProxyFromEnvironment;
                    DialContext := {| Timeout := 0%Z |} |});
      reflexivity.
Defined.

Lemma requests_carry_basic_auth_witness :
  In demo_request
    (sent_by (@Get demo_library demo_network 7 "/issue/ABC-1") demo_machine)
  /\ Header_Get (@Header demo_library demo_request) "Authorization"
     = "Basic dXNlckBleGFtcGxlLmNvbTp0b2sxMjM=" /\
  base64.DecodeString "dXNlckBleGFtcGxlLmNvbTp0b2sxMjM="
    = Some "user@example.com:tok123".
Proof.
  assert (Hin : In demo_request
    (sent_by (@Get demo_library demo_network 7 "/issue/ABC-1") demo_machine))
    by (left; reflexivity).
  split; [exact Hin|].
  exact (requests_carry_basic_auth demo_machine 7 "/issue/ABC-1" demo_request
           (or_introl Hin)).
Defined.

Lemma Get_returns_transport_outcome_witness :
  receiver demo_machine = NewClient demo_config [] /\
  fst (@Get demo_library demo_network 7 "/issue/ABC-1" demo_machine)
    = Returns (Some {| StatusCode := 404; Body := "{}" |}, None) /\
  fst (@GetV1 demo_library demo_network 7 "/board/7/sprint" demo_machine)
    = Returns (Some {| StatusCode := 404; Body := "{}" |}, None).
Proof.
  split; [reflexivity|].
  split.
  - destruct (Get_returns_transport_outcome demo_config [] demo_machine 7
                "/issue/ABC-1" eq_refl) as (_ & Hres & _).
    apply (Hres {| Proxy := Some ProxyFromEnvironment;
                   DialContext := {| Timeout := 0%Z |} |}
                "https://example.atlassian.net/rest/api/3/issue/ABC-1"
                {| StatusCode := 404; Body := "{}" |} 1);
      reflexivity.
  - destruct (Get_returns_transport_outcome demo_config [] demo_machine 7
                "/board/7/sprint" eq_refl) as (_ & _ & Hres).
    apply (Hres {| Proxy := Some ProxyFromEnvironment;
                   DialContext := {| Timeout := 0%Z |} |}
                "https://example.atlassian.net/rest/agile/1.0/board/7/sprint"
                {| StatusCode := 404; Body := "{}" |} 1);
      reflexivity.
Defined.

Lemma debug_flag_decides_trace_witness :
  (debug (receiver demo_machine) = true /\
   printed_by (@Get demo_library demo_network 7 "/issue/ABC-1") demo_machine
     = ["Requesting: https://example.atlassian.net/rest/api/3/issue/ABC-1"
        ++ LF]) /\
  (debug (receiver quiet_machine) = false /\
   printed_by (@Get demo_library demo_network 7 "/issue/ABC-1") quiet_machine
     = []).
Proof.
  split; (split; [reflexivity|]).
  - pose proof (debug_flag_decides_trace demo_machine 7 "/issue/ABC-1") as Hw.
    cbv zeta in Hw. destruct Hw as [Hon _].
    destruct (Hon eq_refl) as (Hget & _). exact Hget.
  - pose proof (debug_flag_decides_trace quiet_machine 7 "/issue/ABC-1")
      as Hw.
    cbv zeta in Hw. destruct Hw as [_ Hoff].
    destruct (Hoff eq_refl) as (Hget & _). exact Hget.
Defined.

(* ------------------------------------------------------------------ *)
(** ** The init command *)

(** C10. When Generate returns ErrSkip, [initialize] prints the skip
    message behind the green check mark, the mark of the message printed on
    success, and then exits with status 1, the status it also exits with
    when Generate fails with any other error, whose message is behind the
    red cross. *)
Theorem initialize_skip_exits_1 (file : string) :
  cmd.initialize (Some cmd.ErrSkip) file =
    ([cmd.green_check ++ " Skipping config generation. Current config: "
        ++ file ++ LF],
     cmd.Exited 1) /\
  (forall msg : string,
     cmd.initialize (Some (cmd.ErrOther msg)) file =
       ([cmd.red_cross ++ " Unable to generate configuration: "
           ++ file ++ LF],
        cmd.Exited 1)) /\
  cmd.initialize None file =
    ([cmd.green_check ++ " Configuration generated: " ++ file ++ LF],
     cmd.Returned) /\
  (forall msg : string,
     snd (cmd.initialize (Some cmd.ErrSkip) file) =
     snd (cmd.initialize (Some (cmd.ErrOther msg)) file)).
Proof. repeat split. Qed.

(* ================================================================== *)
(** * Part IV: further properties of the code *)

(* ------------------------------------------------------------------ *)
(** ** Construction *)

(** X1. NewClient changes the configured server by at most one final
    slash: either the server is the field followed by a slash, or it does
    not end in a slash and the field is the server itself. *)
Theorem NewClient_server_shape (cfg : Config) (ds : list Duration) :
  let c := NewClient cfg (map WithTimeout ds) in
  Server cfg = server c ++ "/" \/
  (strings.HasSuffix (Server cfg) "/" = false /\ server c = Server cfg).
Proof.
  intros c. subst c. rewrite NewClient_WithTimeout_server.
  destruct (strings.HasSuffix (Server cfg) "/") eqn:Hs.
  - left. apply HasSuffix_inv in Hs.
    remember (substring 0 (length (Server cfg) - length "/") (Server cfg))
      as s' eqn:E.
    rewrite Hs. now rewrite TrimSuffix_app.
  - right. split; [reflexivity|]. now apply TrimSuffix_no_suffix.
Qed.

(** X2. Whatever [WithTimeout] options are given, the client has the
    transport, server, login, token and debug flag of the client built with
    no option; its timeout is the last duration given, zero when none. *)
Theorem WithTimeout_options_frame (cfg : Config) (ds : list Duration) :
  let c := NewClient cfg (map WithTimeout ds) in
  transport c = transport (NewClient cfg []) /\
  server c = server (NewClient cfg []) /\
  login c = Login cfg /\ token c = APIToken cfg /\ debug c = Debug cfg /\
  timeout c = last ds 0%Z /\
  dial_timeout c = Some 0%Z.
Proof.
  intros c. subst c.
  pose proof (apply_WithTimeout_frame ds (NewClient cfg [])) as Hf.
  cbv zeta in Hf. destruct Hf as (Ht & Hs & Hl & Hk & Hd & Hto).
  change (apply_opts (map WithTimeout ds) (NewClient cfg []))
    with (NewClient cfg (map WithTimeout ds)) in *.
  repeat split; try assumption.
  unfold dial_timeout. now rewrite Ht.
Qed.

(* ------------------------------------------------------------------ *)
(** ** Single calls *)

Section SingleCalls.

Context `{Network}.

Lemma run_call_request (k : call) (m : Machine) :
  run_call k m = request (call_ctx k) (call_endpoint (receiver m) k) m.
Proof. destruct k; reflexivity. Qed.

Lemma request_world_parse_error (ctx : context_Context) (endpoint msg : string)
  (m : Machine) :
  url_Parse endpoint = inl msg ->
  request ctx endpoint m =
    (Returns (None, Some (url_Error msg)), traced m endpoint).
Proof. intros Hp. now rewrite request_run, Hp. Qed.

(** X3. When the URL does not parse, Get and GetV1 return a nil response
    with the parse error, hand nothing to the transport and leave the world
    as it was; this holds for every client, with or without a transport. *)
Theorem parse_error_stops_before_transport
  (m : Machine) (ctx : context_Context) (p msg : string) :
  (url_Parse (server (receiver m) ++ baseURLv3 ++ p) = inl msg ->
     fst (Get ctx p m) = Returns (None, Some (url_Error msg)) /\
     sent_by (Get ctx p) m = [] /\
     world (snd (Get ctx p m)) = world m) /\
  (url_Parse (server (receiver m) ++ baseURLv1 ++ p) = inl msg ->
     fst (GetV1 ctx p m) = Returns (None, Some (url_Error msg)) /\
     sent_by (GetV1 ctx p) m = [] /\
     world (snd (GetV1 ctx p m)) = world m).
Proof.
  split; intros Hp.
  - rewrite Get_sent_by, Get_run.
    rewrite (request_world_parse_error _ _ _ _ Hp).
    unfold requests_of. rewrite Hp. cbn [fst snd].
    now rewrite traced_world.
  - rewrite GetV1_sent_by, GetV1_run.
    rewrite (request_world_parse_error _ _ _ _ Hp).
    unfold requests_of. rewrite Hp. cbn [fst snd].
    now rewrite traced_world.
Qed.

(** X4. When the transport fails, Get and GetV1 return a nil response with
    the transport's error, not wrapped and not retried: the one request
    built was handed over once, and the world is the one the transport
    left. *)
Theorem transport_error_is_returned
  (m : Machine) (ctx : context_Context) (p msg : string)
  (t : http_Transport) (u : url_URL) (w : World) :
  transport (receiver m) = Some t ->
  Transport_RoundTrip t (built (receiver m) ctx u) (world m) = (inr msg, w) ->
  (url_Parse (server (receiver m) ++ baseURLv3 ++ p) = inr u ->
     Get ctx p m =
       (Returns (None, Some (net_Error msg)),
        hand_over (traced m (server (receiver m) ++ baseURLv3 ++ p))
          (built (receiver m) ctx u) w) /\
     sent_by (Get ctx p) m = [built (receiver m) ctx u]) /\
  (url_Parse (server (receiver m) ++ baseURLv1 ++ p) = inr u ->
     GetV1 ctx p m =
       (Returns (None, Some (net_Error msg)),
        hand_over (traced m (server (receiver m) ++ baseURLv1 ++ p))
          (built (receiver m) ctx u) w) /\
     sent_by (GetV1 ctx p) m = [built (receiver m) ctx u]).
Proof.
  intros Ht Hrt. split; intros Hp.
  - rewrite Get_sent_by, Get_run, request_run, Hp, Ht.
    unfold RoundTrip, requests_of. rewrite traced_world, Hrt, Hp, Ht.
    split; reflexivity.
  - rewrite GetV1_sent_by, GetV1_run, request_run, Hp, Ht.
    unfold RoundTrip, requests_of. rewrite traced_world, Hrt, Hp, Ht.
    split; reflexivity.
Qed.

(** X5. No call hands more than one request to the transport, whatever
    the client, the network and the outcome. *)
Theorem at_most_one_request_per_call (k : call) (m : Machine) :
  List.length (sent_by (run_call k) m) <= 1.
Proof.
  unfold sent_by. rewrite run_call_request.
  fold (sent_by (request (call_ctx k) (call_endpoint (receiver m) k)) m).
  rewrite request_sent_by. unfold requests_of.
  destruct (url_Parse _) as [msg|u]; [cbn; lia|].
  destruct (transport (receiver m)); cbn; lia.
Qed.

(** X6. A request handed to the transport by Get or GetV1 is bound to the
    context of the call, not to the background context, and Authorization
    is its only header: looking up any key that is Authorization in
    canonical form, in whatever case it is written, gives the Basic value,
    and looking up any other key gives the empty string. *)
Theorem requests_carry_caller_context
  (m : Machine) (ctx : context_Context) (p : string) (req : Request) :
  In req (sent_by (Get ctx p) m) \/ In req (sent_by (GetV1 ctx p) m) ->
  req_ctx req = ctx /\
  (forall key : string,
     CanonicalMIMEHeaderKey key = "Authorization" ->
     Header_Get (Header req) key =
       "Basic " ++ basicAuth (login (receiver m)) (token (receiver m))) /\
  (forall key : string,
     CanonicalMIMEHeaderKey key <> "Authorization" ->
     Header_Get (Header req) key = EmptyString).
Proof.
  intros Hin. rewrite Get_sent_by, GetV1_sent_by in Hin.
  assert (Hreq : req = built (receiver m) ctx (URL req)).
  { destruct Hin as [Hin|Hin]; now apply requests_of_In in Hin. }
  rewrite Hreq. split; [reflexivity|].
  split; intros key Hkey; unfold Header_Get, built; cbn [Header find fst].
  - rewrite Hkey. reflexivity.
  - destruct (String.eqb_spec "Authorization" (CanonicalMIMEHeaderKey key))
      as [E|_]; [now elim Hkey | reflexivity].
Qed.

(** X7. On a client without a transport, as the zero client is, a call
    whose URL parses panics at the round trip: nothing is returned, nothing
    is sent and the world is as it was. *)
Theorem nil_transport_panics
  (m : Machine) (ctx : context_Context) (endpoint : string) (u : url_URL) :
  transport (receiver m) = None ->
  url_Parse endpoint = inr u ->
  (exists msg, fst (request ctx endpoint m) = Panics msg) /\
  sent_by (request ctx endpoint) m = [] /\
  world (snd (request ctx endpoint m)) = world m.
Proof.
  intros Ht Hp. rewrite request_sent_by, request_run, Hp, Ht.
  unfold requests_of. rewrite Hp, Ht. cbn [RoundTrip fst snd].
  split; [eauto|]. split; [reflexivity | apply traced_world].
Qed.

End SingleCalls.

(* ------------------------------------------------------------------ *)
(** ** Sequences of calls *)

Section Sequences.

Context `{Network}.



(** One call on a client with a transport: it returns, and the machine
    after it is described field by field. *)
Lemma run_call_step (k : call) (m : Machine) (t : http_Transport) :
  transport (receiver m) = Some t ->
  exists r m1,
    run_call k m = (Returns r, m1) /\
    receiver m1 = receiver m /\
    sent m1 =
      (sent m ++ requests_of (receiver m) (call_ctx k)
                   (call_endpoint (receiver m) k))%list /\
    stdout m1 =
      (stdout m ++ if debug (receiver m)
                   then [trace_line (call_endpoint (receiver m) k)]
                   else [])%list.
Proof.
  intros Ht. rewrite run_call_request.
  set (ctx := call_ctx k). set (e := call_endpoint (receiver m) k).
  pose proof (request_outcome ctx e m t Ht) as Ho.
  pose proof (request_receiver ctx e m) as Hr.
  pose proof (request_sent ctx e m) as Hs.
  pose proof (request_stdout ctx e m) as Hp.
  destruct (request ctx e m) as [o m1]. cbn [fst snd] in *.
  rewrite Ho. eauto 6.
Qed.


(** A sequence of calls with contexts that are not nil, on a client with
    a transport: one result per call, no sentinel error, one trace line per
    call when the debug flag is set. *)
Lemma run_calls_on_transport (cs : list call) :
  forall (m : Machine) (t : http_Transport),
    transport (receiver m) = Some t ->
    (exists rs : list result,
       fst (run_calls cs m) = Returns rs /\
       List.length rs = List.length cs /\
       Forall (fun r => forall e, snd r = Some e -> is_sentinel e = false)
         rs) /\
    stdout (snd (run_calls cs m)) =
      (stdout m ++ if debug (receiver m)
                   then map (fun k => trace_line
                                        (call_endpoint (receiver m) k)) cs
                   else [])%list.
Proof.
  induction cs as [|k cs IH]; intros m t Ht.
  - cbn. split; [exists []; auto|].
    destruct (debug (receiver m)); now rewrite app_nil_r.
  - cbn [run_calls map].
    destruct (run_call_step k m t Ht) as (r & m1 & Hrun & Hr & _ & Hout).
    assert (Hok : forall e, snd r = Some e -> is_sentinel e = false).
    { intros e He. destruct r as [res err]. cbn [snd] in He. subst err.
      rewrite run_call_request in Hrun.
      apply (request_no_sentinel (call_ctx k)
               (call_endpoint (receiver m) k) m res e).
      now rewrite Hrun. }
    unfold bind at 1 3. rewrite Hrun.
    assert (Ht1 : transport (receiver m1) = Some t) by now rewrite Hr.
    destruct (IH m1 t Ht1) as ((rs & Hrs & Hlen & Hall) & Hstd).
    unfold bind at 1 2.
    destruct (run_calls cs m1) as [o m2]. cbn [fst snd] in *. subst o.
    unfold ret. cbn [fst snd]. split.
    + exists (r :: rs). repeat split; [cbn; now rewrite Hlen|].
      constructor; assumption.
    + rewrite Hstd, Hout, Hr.
      destruct (debug (receiver m)); rewrite <- app_assoc; reflexivity.
Qed.

End Sequences.

(* ------------------------------------------------------------------ *)
(** ** Contexts that may be nil *)

Section NilContexts.

Context `{Network}.

Lemma request_nilable_Some (ctx : context_Context) (endpoint : string)
  (m : Machine) :
  request_nilable (Some ctx) endpoint m = request ctx endpoint m.
Proof.
  unfold request_nilable, request, bind, field, lift_outcome.
  destruct (debug (receiver m)); cbn;
    destruct (http_NewRequest MethodGet endpoint); reflexivity.
Qed.

(** With a nil context the trace and the parse go as usual, and a request
    that parses gets no further than [WithContext]. *)
Lemma request_nilable_None (endpoint : string) (m : Machine) :
  request_nilable None endpoint m =
    match url_Parse endpoint with
    | inl msg => (Returns (None, Some (url_Error msg)), traced m endpoint)
    | inr _ => (Panics "nil context", traced m endpoint)
    end.
Proof.
  unfold request_nilable, traced, bind, field, lift_outcome, http_NewRequest.
  destruct (debug (receiver m)); cbn;
    destruct (url_Parse endpoint); reflexivity.
Qed.

Lemma run_call_nilable_request (k : call_nilable) (m : Machine) :
  run_call_nilable k m =
  request_nilable (ncall_ctx k) (ncall_endpoint (receiver m) k) m.
Proof. destruct k; reflexivity. Qed.

Lemma run_call_nilable_of_call (k : call) (m : Machine) :
  run_call_nilable (of_call k) m = run_call k m.
Proof.
  rewrite run_call_nilable_request, run_call_request.
  destruct k; apply request_nilable_Some.
Qed.

Lemma run_calls_nilable_of_calls (cs : list call) :
  forall m, run_calls_nilable (map of_call cs) m = run_calls cs m.
Proof.
  induction cs as [|k cs IH]; intros m; [reflexivity|].
  cbn [map run_calls_nilable run_calls]. unfold bind at 1 3.
  rewrite run_call_nilable_of_call.
  destruct (run_call k m) as [[r|msg] m1]; [|reflexivity].
  unfold bind at 1 2. now rewrite IH.
Qed.

Lemma ncall_endpoint_of_call (c : Client) (k : call) :
  ncall_endpoint c (of_call k) = call_endpoint c k.
Proof. now destruct k. Qed.

Lemma nonnil_calls (ks : list call_nilable) :
  Forall (fun k => ncall_ctx k <> None) ks ->
  exists cs : list call, ks = map of_call cs.
Proof.
  induction 1 as [|k ks Hk _ [cs ->]]; [now exists []|].
  destruct k as [[ctx|] p|[ctx|] p|[ctx|] e]; try now elim Hk.
  - now exists (call_Get ctx p :: cs).
  - now exists (call_GetV1 ctx p :: cs).
  - now exists (call_request ctx e :: cs).
Qed.

(** X9. On a client with a transport, a sequence of calls none of which
    has a nil context does not panic: it returns one result per call, none
    of them carrying a sentinel error, and it writes one trace line per
    call when the debug flag is set and nothing when it is clear. *)
Theorem sequence_returns_and_traces
  (ks : list call_nilable) (m : Machine) (t : http_Transport) :
  transport (receiver m) = Some t ->
  Forall (fun k => ncall_ctx k <> None) ks ->
  (exists rs : list result,
     fst (run_calls_nilable ks m) = Returns rs /\
     List.length rs = List.length ks /\
     Forall (fun r => forall e, snd r = Some e -> is_sentinel e = false)
       rs) /\
  stdout (snd (run_calls_nilable ks m)) =
    (stdout m ++ if debug (receiver m)
                 then map (fun k => trace_line
                                      (ncall_endpoint (receiver m) k)) ks
                 else [])%list.
Proof.
  intros Ht Hctx. destruct (nonnil_calls ks Hctx) as [cs ->].
  rewrite run_calls_nilable_of_calls, length_map, map_map.
  destruct (run_calls_on_transport cs m t Ht) as [Hret Hout].
  split; [exact Hret|]. rewrite Hout.
  destruct (debug (receiver m)); [|reflexivity].
  f_equal. apply map_ext. intros k. now rewrite ncall_endpoint_of_call.
Qed.

(** X13. A call with a nil context whose URL parses panics in
    [WithContext], on every client, with or without a transport: nothing
    is returned, nothing is handed to the transport, and the world and the
    client are as they were. When the URL does not parse, the parse error
    is returned and the nil context goes unnoticed. *)
Theorem nil_context_panics (k : call_nilable) (m : Machine) :
  ncall_ctx k = None ->
  (forall u : url_URL,
     url_Parse (ncall_endpoint (receiver m) k) = inr u ->
     (exists msg, fst (run_call_nilable k m) = Panics msg) /\
     sent (snd (run_call_nilable k m)) = sent m /\
     world (snd (run_call_nilable k m)) = world m /\
     receiver (snd (run_call_nilable k m)) = receiver m) /\
  (forall msg : string,
     url_Parse (ncall_endpoint (receiver m) k) = inl msg ->
     fst (run_call_nilable k m) = Returns (None, Some (url_Error msg))).
Proof.
  intros Hnil. rewrite run_call_nilable_request, Hnil, request_nilable_None.
  split.
  - intros u ->. cbn [fst snd].
    rewrite traced_sent, traced_world, traced_receiver. eauto.
  - intros msg ->. reflexivity.
Qed.

End NilContexts.

(* ------------------------------------------------------------------ *)
(** ** Header keys *)

(** Keys are looked up in canonical form; a key that is not a field name
    is left as it is. *)
Example CanonicalMIMEHeaderKey_runs :
  CanonicalMIMEHeaderKey "authorization" = "Authorization" /\
  CanonicalMIMEHeaderKey "AUTHORIZATION" = "Authorization" /\
  CanonicalMIMEHeaderKey "content-type" = "Content-Type" /\
  CanonicalMIMEHeaderKey "x y" = "x y".
Proof. repeat split. Qed.

(* ------------------------------------------------------------------ *)
(** ** Credentials and endpoints *)

Section CredentialsAndEndpoints.

Lemma prefix_empty (s : string) : prefix EmptyString s = true.
Proof. now destruct s. Qed.

Lemma Contains_colon_cons (ch : ascii) (s : string) :
  strings.Contains (String ch s) ":" = false ->
  ch <> ":"%char /\ strings.Contains s ":" = false.
Proof.
  cbn [strings.Contains prefix]. intros Hc.
  apply orb_false_iff in Hc. destruct Hc as [Hp Hs]. split; [|exact Hs].
  intros ->. destruct (ascii_dec ":" ":") as [_|Hne]; [|now elim Hne].
  rewrite prefix_empty in Hp. discriminate Hp.
Qed.

(** A text [u:p] with no colon in [u] splits in one way only. *)
Lemma colon_split_unique (u : string) :
  forall u' p p' : string,
    strings.Contains u ":" = false ->
    strings.Contains u' ":" = false ->
    u ++ ":" ++ p = u' ++ ":" ++ p' ->
    u = u' /\ p = p'.
Proof.
  induction u as [|ch u IH]; intros [|ch' u'] p p' Hu Hu' Heq.
  - cbn in Heq. injection Heq as ->. split; reflexivity.
  - cbn in Heq. injection Heq as <- _.
    apply Contains_colon_cons in Hu'. now destruct Hu' as [Hne _].
  - cbn in Heq. injection Heq as -> _.
    apply Contains_colon_cons in Hu. now destruct Hu as [Hne _].
  - cbn in Heq. injection Heq as -> Heq.
    apply Contains_colon_cons in Hu, Hu'.
    destruct (IH u' p p' (proj2 Hu) (proj2 Hu') Heq) as [-> ->].
    split; reflexivity.
Qed.

(** X10. The Authorization header identifies the credentials: two pairs
    of login and token, the logins without a colon, that give the same
    header value are the same pair. *)
Theorem basic_auth_identifies_credentials (u p u' p' : string) :
  strings.Contains u ":" = false ->
  strings.Contains u' ":" = false ->
  basicAuth u p = basicAuth u' p' ->
  u = u' /\ p = p'.
Proof.
  intros Hu Hu' Heq. apply (colon_split_unique u u' p p' Hu Hu').
  unfold basicAuth in Heq.
  apply (f_equal base64.DecodeString) in Heq.
  rewrite !DecodeString_EncodeToString in Heq. now injection Heq.
Qed.

(** With a colon in the login the header no longer tells the pair. *)
Example basic_auth_colon_in_login :
  basicAuth "a:b" "c" = basicAuth "a" "b:c".
Proof. reflexivity. Qed.

Lemma append_inv_head (s a b : string) : s ++ a = s ++ b -> a = b.
Proof.
  induction s as [|ch s IH]; cbn; intros Heq; [exact Heq|].
  injection Heq as Heq. now apply IH.
Qed.

Context `{Network}.

(** X11. The two API surfaces never meet: on one client an endpoint of Get
    is never an endpoint of GetV1, whatever the two paths, and within one
    surface different paths give different endpoints. *)
Theorem endpoints_never_collide
  (c : Client) (ctx ctx' : context_Context) (p p' : string) :
  call_endpoint c (call_Get ctx p) <> call_endpoint c (call_GetV1 ctx' p') /\
  (call_endpoint c (call_Get ctx p) = call_endpoint c (call_Get ctx' p') ->
   p = p') /\
  (call_endpoint c (call_GetV1 ctx p) = call_endpoint c (call_GetV1 ctx' p')
   -> p = p').
Proof.
  cbn [call_endpoint]. split; [|split]; intros Heq;
    apply append_inv_head in Heq.
  - cbn in Heq. discriminate Heq.
  - now apply append_inv_head in Heq.
  - now apply append_inv_head in Heq.
Qed.

End CredentialsAndEndpoints.

(* ------------------------------------------------------------------ *)
(** ** The init command: what is printed *)

Lemma append_assoc_r (a b c : string) : a ++ b ++ c = (a ++ b) ++ c.
Proof. induction a as [|ch a IH]; cbn; [reflexivity | now rewrite IH]. Qed.

(** X12. Whatever Generate returns, [initialize] prints exactly one chunk,
    which names the configuration file in use and ends with a line feed. *)
Theorem initialize_prints_one_line
  (Generate : option cmd.config_error) (file : string) :
  exists line : string,
    fst (cmd.initialize Generate file) = [line] /\
    strings.Contains line file = true /\
    strings.HasSuffix line LF = true.
Proof.
  destruct Generate as [[|msg]|]; cbn [cmd.initialize cmd.is_ErrSkip fst];
    eexists; (split; [reflexivity|]); split.
  all: try (apply Contains_app_r, Contains_app_r, Contains_prefix,
            prefix_app).
  all: rewrite 2!append_assoc_r; apply HasSuffix_app.
Qed.

(* ------------------------------------------------------------------ *)
(** ** The further properties, run on the concrete networks *)

Lemma parse_error_stops_before_transport_witness :
  fst (@Get demo_library demo_network 7 "/issue/ABC-1" malformed_machine)
    = Returns (None,
               Some (url_Error "net/url: invalid control character in URL"))
  /\ sent_by (@Get demo_library demo_network 7 "/issue/ABC-1")
       malformed_machine = [] /\
  @world demo_library demo_network
    (snd (@Get demo_library demo_network 7 "/issue/ABC-1" malformed_machine))
    = 0.
Proof.
  destruct (parse_error_stops_before_transport malformed_machine 7
              "/issue/ABC-1" "net/url: invalid control character in URL")
    as [Hget _].
  exact (Hget eq_refl).
Defined.

Lemma transport_error_is_returned_witness :
  fst (@Get demo_library down_network 7 "/issue/ABC-1" down_machine)
    = Returns (None,
               Some (net_Error "dial tcp: connect: connection refused")) /\
  List.length
    (sent_by (@Get demo_library down_network 7 "/issue/ABC-1") down_machine)
    = 1.
Proof.
  destruct (transport_error_is_returned down_machine 7 "/issue/ABC-1"
              "dial tcp: connect: connection refused"
              {| Proxy := Some ProxyFromEnvironment;
                 DialContext := {| Timeout := 0%Z |} |}
              "https://example.atlassian.net/rest/api/3/issue/ABC-1"
              1 eq_refl eq_refl) as [Hget _].
  destruct (Hget eq_refl) as [Hrun Hsent].
  split; [now rewrite Hrun | now rewrite Hsent].
Defined.

Lemma requests_carry_caller_context_witness :
  In demo_request
    (sent_by (@Get demo_library demo_network 7 "/issue/ABC-1") demo_machine)
  /\ @req_ctx demo_library demo_request = 7 /\
  Header_Get (@Header demo_library demo_request) "authorization"
    = "Basic dXNlckBleGFtcGxlLmNvbTp0b2sxMjM=" /\
  Header_Get (@Header demo_library demo_request) "Cookie" = EmptyString.
Proof.
  assert (Hin : In demo_request
    (sent_by (@Get demo_library demo_network 7 "/issue/ABC-1") demo_machine))
    by (left; reflexivity).
  split; [exact Hin|].
  destruct (requests_carry_caller_context demo_machine 7 "/issue/ABC-1"
              demo_request (or_introl Hin)) as (Hctx & Hauth & Hother).
  split; [exact Hctx|].
  split; [exact (Hauth "authorization" eq_refl)|].
  apply Hother. discriminate.
Defined.

Lemma nil_transport_panics_witness :
  transport (receiver zero_machine) = None /\
  (exists msg,
     fst (@request demo_library demo_network 7 "/rest/api/3/issue/ABC-1"
            zero_machine) = Panics msg) /\
  sent_by (@request demo_library demo_network 7 "/rest/api/3/issue/ABC-1")
    zero_machine = [].
Proof.
  split; [reflexivity|].
  destruct (nil_transport_panics zero_machine 7 "/rest/api/3/issue/ABC-1"
              "/rest/api/3/issue/ABC-1" eq_refl eq_refl)
    as (Hpanic & Hsent & _).
  split; [exact Hpanic | exact Hsent].
Defined.

Lemma sequence_returns_and_traces_witness :
  Forall (fun k => @ncall_ctx demo_library demo_network k <> None)
    demo_ncalls /\
  (exists rs : list result,
     fst (run_calls_nilable demo_ncalls demo_machine) = Returns rs /\
     List.length rs = 3) /\
  List.length (stdout (snd (run_calls_nilable demo_ncalls demo_machine))) = 3.
Proof.
  assert (Hctx : Forall
            (fun k => @ncall_ctx demo_library demo_network k <> None)
            demo_ncalls)
    by (repeat constructor; discriminate).
  split; [exact Hctx|].
  destruct (sequence_returns_and_traces demo_ncalls demo_machine
              {| Proxy := Some ProxyFromEnvironment;
                 DialContext := {| Timeout := 0%Z |} |} eq_refl Hctx)
    as ((rs & Hrs & Hlen & _) & Hout).
  split; [exists rs; split; [exact Hrs | exact Hlen]|].
  rewrite Hout. reflexivity.
Defined.

Lemma nil_context_panics_witness :
  (exists msg,
     fst (@Get_nilable demo_library demo_network None "/issue/ABC-1"
            demo_machine) = Panics msg) /\
  @sent demo_library demo_network
    (snd (@Get_nilable demo_library demo_network None "/issue/ABC-1"
            demo_machine)) = [] /\
  fst (@Get_nilable demo_library demo_network None "/issue/ABC-1"
         malformed_machine)
    = Returns (None,
               Some (url_Error "net/url: invalid control character in URL")).
Proof.
  destruct (nil_context_panics
              (@ncall_Get demo_library demo_network None "/issue/ABC-1")
              demo_machine eq_refl) as [Hpanic _].
  destruct (Hpanic "https://example.atlassian.net/rest/api/3/issue/ABC-1"
              eq_refl) as (Hfst & Hsent & _ & _).
  destruct (nil_context_panics
              (@ncall_Get demo_library demo_network None "/issue/ABC-1")
              malformed_machine eq_refl) as [_ Herr].
  split; [exact Hfst|]. split; [exact Hsent|].
  exact (Herr "net/url: invalid control character in URL" eq_refl).
Defined.

Lemma basic_auth_identifies_credentials_witness :
  strings.Contains "user@example.com" ":" = false /\
  ("user@example.com" = "user@example.com" /\ "tok123" = "tok123").
Proof.
  split; [reflexivity|].
  exact (basic_auth_identifies_credentials "user@example.com" "tok123"
           "user@example.com" "tok123" eq_refl eq_refl eq_refl).
Defined.

Lemma endpoints_never_collide_witness :
  @call_endpoint demo_library demo_network (NewClient demo_config [])
    (@call_Get demo_library demo_network 7 "/board/7")
  <> @call_endpoint demo_library demo_network (NewClient demo_config [])
       (@call_GetV1 demo_library demo_network 7 "/board/7") /\
  "/board/7" = "/board/7".
Proof.
  destruct (@endpoints_never_collide demo_library demo_network
              (NewClient demo_config []) 7 7 "/board/7" "/board/7")
    as (Hne & Hinj & _).
  split; [exact Hne | exact (Hinj eq_refl)].
Defined.

(** The requests of three calls in a row, the last with a URL that does
    not parse: two requests, in the order of the calls. *)
Example demo_calls_requests :
  map (@URL demo_library)
    (@sent demo_library demo_network
       (snd (run_calls demo_calls demo_machine)))
  = ["https://example.atlassian.net/rest/api/3/issue/ABC-1";
     "https://example.atlassian.net/rest/agile/1.0/board/7/sprint"].
Proof. reflexivity. Qed.
